(** * Grant application lifecycle: a shallow embedding of [main.py]

    The Python program keeps [Application] objects that are shared by
    reference between the registry ([ApplicationService.applications]) and
    whoever received them from [SystemFacade.submit_application].  The
    embedding therefore keeps the instances in a heap and the registry maps
    ids to addresses.  Everything the program prints is kept as the list of
    texts written to standard output, one entry for each [print] call.  An uncaught Python exception is the
    outcome [Raise]; the mutations made before it stay in the world. *)

From Stdlib Require Import ZArith Lia Ascii.
From stdpp Require Import base tactics option list strings pretty gmap relations sorting.

Local Open Scope Z_scope.

(** ** Outcomes and the effect monad *)

Inductive Exception : Type :=
| AttributeError (message : string).

(** [Undefined] is the outcome of reading an address that holds no object.
    Python has no such references; the constructor only makes the embedding
    total, and the theorems below show it does not occur on allocated
    addresses. *)
Inductive Outcome (A : Type) : Type :=
| Return (a : A)
| Raise (e : Exception)
| Undefined.
Arguments Return {A} a.
Arguments Raise {A} e.
Arguments Undefined {A}.

Definition M (W A : Type) : Type := W -> Outcome A * W.

Definition ret {W A} (a : A) : M W A := fun w => (Return a, w).

Definition bind {W A B} (m : M W A) (k : A -> M W B) : M W B :=
  fun w =>
    match m w with
    | (Return a, w') => k a w'
    | (Raise e, w') => (Raise e, w')
    | (Undefined, w') => (Undefined, w')
    end.

Definition raise {W A} (e : Exception) : M W A := fun w => (Raise e, w).

Definition gets {W A} (f : W -> A) : M W A := fun w => (Return (f w), w).

Definition modify {W} (f : W -> W) : M W unit := fun w => (Return tt, f w).

Declare Scope py_scope.
Delimit Scope py_scope with py.
Notation "x <- m ;; k" := (bind m (fun x => k))
  (at level 20, m at level 99, k at level 200, only parsing) : py_scope.
Notation "m ;; k" := (bind m (fun _ => k))
  (at level 100, k at level 200, only parsing, right associativity) : py_scope.
Local Open Scope py_scope.

(** ** Data model *)

(** The six state classes carry no data: an instance is its class. *)
Inductive ApplicationState : Type :=
| SubmittedState
| UnderReviewState
| EvaluatedState
| WithdrawnState
| ApprovedState
| RejectedState.

Global Instance ApplicationState_eq_dec : EqDecision ApplicationState.
Proof. solve_decision. Defined.

(** [type(s).__name__] *)
Definition type_name (s : ApplicationState) : string :=
  match s with
  | SubmittedState => "SubmittedState"
  | UnderReviewState => "UnderReviewState"
  | EvaluatedState => "EvaluatedState"
  | WithdrawnState => "WithdrawnState"
  | ApprovedState => "ApprovedState"
  | RejectedState => "RejectedState"
  end.

Module Application.
Record t : Type := mk {
  application_id : Z;
  title : string;
  description : string;
  applicant_id : Z;
  state : ApplicationState
}.

(** The object after the assignment [self.state = s]. *)
Definition with_state (s : ApplicationState) (self : t) : t :=
  mk (application_id self) (title self) (description self)
     (applicant_id self) s.
End Application.

(** Address of an [Application] instance: its position in creation order. *)
Definition loc : Type := nat.

Record Env : Type := mkEnv {
  heap : list Application.t;
  stdout : list string
}.

Definition print (line : string) : M Env unit :=
  modify (fun w => mkEnv (heap w) (stdout w ++ [line])).

(** Attribute read [r.name] on a reference that may be [None]. *)
Definition getattr {A} (name : string) (field : Application.t -> A)
    (r : option loc) : M Env A :=
  fun w =>
    match r with
    | None =>
        (Raise (AttributeError
                  ("'NoneType' object has no attribute '" +:+ name +:+ "'")), w)
    | Some a =>
        match heap w !! a with
        | Some obj => (Return (field obj), w)
        | None => (Undefined, w)
        end
    end.

(** Method call [r.name(...)] on a reference that may be [None]. *)
Definition call {A} (name : string) (method : loc -> M Env A)
    (r : option loc) : M Env A :=
  match r with
  | None =>
      raise (AttributeError
               ("'NoneType' object has no attribute '" +:+ name +:+ "'"))
  | Some a => method a
  end.

(** ** class Application: constructor, [get_state], [set_state] *)

Definition Application_init (application_id : Z) (title description : string)
    (applicant_id : Z) : M Env loc :=
  fun w =>
    (Return (length (heap w)),
     mkEnv (heap w ++ [Application.mk application_id title description
                                      applicant_id SubmittedState])
           (stdout w)).

Definition Application_get_state (self : loc) : M Env string :=
  getattr "state" (fun obj => type_name (Application.state obj)) (Some self).

Definition Application_set_state (self : loc) (s : ApplicationState) : M Env unit :=
  fun w =>
    match heap w !! self with
    | Some obj => (Return tt, mkEnv (<[self := Application.with_state s obj]> (heap w)) (stdout w))
    | None => (Undefined, w)
    end.

(** ** The state classes *)

Module SubmittedState.
Definition submit (app : loc) : M Env unit :=
  print "[SubmittedState] Already submitted".
Definition review (app : loc) : M Env unit :=
  print "[SubmittedState] Moving to UNDER_REVIEW" ;;
  Application_set_state app UnderReviewState.
Definition evaluate (app : loc) : M Env unit :=
  print "[SubmittedState] Cannot evaluate, not under review".
Definition withdraw (app : loc) : M Env unit :=
  print "[SubmittedState] Withdrawing application" ;;
  Application_set_state app WithdrawnState.
Definition decide (app : loc) (decision : string) : M Env unit :=
  print "[SubmittedState] Cannot decide, not evaluated".
End SubmittedState.

Module UnderReviewState.
Definition submit (app : loc) : M Env unit :=
  print "[UnderReviewState] Already submitted".
Definition review (app : loc) : M Env unit :=
  print "[UnderReviewState] Already under review".
Definition evaluate (app : loc) : M Env unit :=
  print "[UnderReviewState] Evaluating application" ;;
  Application_set_state app EvaluatedState.
Definition withdraw (app : loc) : M Env unit :=
  print "[UnderReviewState] Withdrawing application" ;;
  Application_set_state app WithdrawnState.
Definition decide (app : loc) (decision : string) : M Env unit :=
  print "[UnderReviewState] Cannot decide, not evaluated".
End UnderReviewState.

Module EvaluatedState.
Definition submit (app : loc) : M Env unit :=
  print "[EvaluatedState] Already submitted".
Definition review (app : loc) : M Env unit :=
  print "[EvaluatedState] Already reviewed".
Definition evaluate (app : loc) : M Env unit :=
  print "[EvaluatedState] Already evaluated".
Definition withdraw (app : loc) : M Env unit :=
  print "[EvaluatedState] Cannot withdraw, already evaluated".
Definition decide (app : loc) (decision : string) : M Env unit :=
  print ("[EvaluatedState] Decision applied: " +:+ decision) ;;
  if String.eqb decision "APPROVED"
  then Application_set_state app ApprovedState
  else Application_set_state app RejectedState.
End EvaluatedState.

Module WithdrawnState.
Definition submit (app : loc) : M Env unit :=
  print "[WithdrawnState] Cannot submit, withdrawn".
Definition review (app : loc) : M Env unit :=
  print "[WithdrawnState] Cannot review, withdrawn".
Definition evaluate (app : loc) : M Env unit :=
  print "[WithdrawnState] Cannot evaluate, withdrawn".
Definition withdraw (app : loc) : M Env unit :=
  print "[WithdrawnState] Already withdrawn".
Definition decide (app : loc) (decision : string) : M Env unit :=
  print "[WithdrawnState] Cannot decide, withdrawn".
End WithdrawnState.

Module ApprovedState.
Definition submit (app : loc) : M Env unit := ret tt.
Definition review (app : loc) : M Env unit := ret tt.
Definition evaluate (app : loc) : M Env unit := ret tt.
Definition withdraw (app : loc) : M Env unit := ret tt.
Definition decide (app : loc) (decision : string) : M Env unit := ret tt.
End ApprovedState.

Module RejectedState.
Definition submit (app : loc) : M Env unit := ret tt.
Definition review (app : loc) : M Env unit := ret tt.
Definition evaluate (app : loc) : M Env unit := ret tt.
Definition withdraw (app : loc) : M Env unit := ret tt.
Definition decide (app : loc) (decision : string) : M Env unit := ret tt.
End RejectedState.

(** Dynamic dispatch [self.state.method(self, ...)] on the class of the
    state object. *)
Definition ApplicationState_submit (s : ApplicationState) : loc -> M Env unit :=
  match s with
  | SubmittedState => SubmittedState.submit
  | UnderReviewState => UnderReviewState.submit
  | EvaluatedState => EvaluatedState.submit
  | WithdrawnState => WithdrawnState.submit
  | ApprovedState => ApprovedState.submit
  | RejectedState => RejectedState.submit
  end.

Definition ApplicationState_review (s : ApplicationState) : loc -> M Env unit :=
  match s with
  | SubmittedState => SubmittedState.review
  | UnderReviewState => UnderReviewState.review
  | EvaluatedState => EvaluatedState.review
  | WithdrawnState => WithdrawnState.review
  | ApprovedState => ApprovedState.review
  | RejectedState => RejectedState.review
  end.

Definition ApplicationState_evaluate (s : ApplicationState) : loc -> M Env unit :=
  match s with
  | SubmittedState => SubmittedState.evaluate
  | UnderReviewState => UnderReviewState.evaluate
  | EvaluatedState => EvaluatedState.evaluate
  | WithdrawnState => WithdrawnState.evaluate
  | ApprovedState => ApprovedState.evaluate
  | RejectedState => RejectedState.evaluate
  end.

Definition ApplicationState_withdraw (s : ApplicationState) : loc -> M Env unit :=
  match s with
  | SubmittedState => SubmittedState.withdraw
  | UnderReviewState => UnderReviewState.withdraw
  | EvaluatedState => EvaluatedState.withdraw
  | WithdrawnState => WithdrawnState.withdraw
  | ApprovedState => ApprovedState.withdraw
  | RejectedState => RejectedState.withdraw
  end.

Definition ApplicationState_decide (s : ApplicationState)
    : loc -> string -> M Env unit :=
  match s with
  | SubmittedState => SubmittedState.decide
  | UnderReviewState => UnderReviewState.decide
  | EvaluatedState => EvaluatedState.decide
  | WithdrawnState => WithdrawnState.decide
  | ApprovedState => ApprovedState.decide
  | RejectedState => RejectedState.decide
  end.

(** ** class Application: the delegating operations *)

Definition Application_submit (self : loc) : M Env unit :=
  s <- getattr "state" Application.state (Some self) ;;
  ApplicationState_submit s self.

Definition Application_start_review (self : loc) : M Env unit :=
  s <- getattr "state" Application.state (Some self) ;;
  ApplicationState_review s self.

Definition Application_evaluate (self : loc) : M Env unit :=
  s <- getattr "state" Application.state (Some self) ;;
  ApplicationState_evaluate s self.

Definition Application_withdraw (self : loc) : M Env unit :=
  s <- getattr "state" Application.state (Some self) ;;
  ApplicationState_withdraw s self.

Definition Application_make_decision (self : loc) (decision : string) : M Env unit :=
  s <- getattr "state" Application.state (Some self) ;;
  ApplicationState_decide s self decision.

(** ** Services: objects with fields of their own

    A service method runs in a world made of the service's own fields
    ([self]) and the shared environment. *)

Definition lift_env {S A} (m : M Env A) : M (S * Env) A :=
  fun w => let '(r, e') := m (snd w) in (r, (fst w, e')).

Definition self_get {S A} (field : S -> A) : M (S * Env) A :=
  gets (fun w => field (fst w)).

Definition self_set {S} (update : S -> S) : M (S * Env) unit :=
  modify (fun w => (update (fst w), snd w)).

(** Run a method of the component [get self] of a composite object. *)
Definition zoom {S T A} (get : T -> S) (set : S -> T -> T)
    (m : M (S * Env) A) : M (T * Env) A :=
  fun w =>
    let '(r, (s', e')) := m (get (fst w), snd w) in
    (r, (set s' (fst w), e')).

(** A Python [dict] with integer keys, in insertion order. *)
Definition dict (V : Type) : Type := list (Z * V).

Fixpoint dict_get {V} (d : dict V) (k : Z) : option V :=
  match d with
  | [] => None
  | (k', v) :: d' => if k' =? k then Some v else dict_get d' k
  end.

Fixpoint dict_set {V} (d : dict V) (k : Z) (v : V) : dict V :=
  match d with
  | [] => [(k, v)]
  | (k', v') :: d' =>
      if k' =? k then (k', v) :: d' else (k', v') :: dict_set d' k v
  end.

Definition dict_values {V} (d : dict V) : list V := map snd d.

(** [str] of a list of integers, as an f-string renders it. *)
Fixpoint join (sep : string) (parts : list string) : string :=
  match parts with
  | [] => ""
  | [p] => p
  | p :: rest => p +:+ sep +:+ join sep rest
  end.

Definition str_list (l : list Z) : string :=
  "[" +:+ join ", " (map pretty l) +:+ "]".

Module ApplicationService.
Record t : Type := mk {
  applications : dict loc;
  next_id : Z
}.

Definition init : t := mk [] 1.

Definition create_application (title description : string) (applicant_id : Z)
    : M (t * Env) loc :=
  app_id <- self_get next_id ;;
  self_set (fun self => mk (applications self) (next_id self + 1)) ;;
  app <- lift_env (Application_init app_id title description applicant_id) ;;
  self_set (fun self => mk (dict_set (applications self) app_id app)
                           (next_id self)) ;;
  lift_env (print ("[ApplicationService] Created application "
                   +:+ pretty app_id)) ;;
  ret app.

(** The list comprehension of [get_applications_by_applicant]. *)
Fixpoint owned_by (applicant_id : Z) (apps : list loc) : M Env (list loc) :=
  match apps with
  | [] => ret []
  | app :: rest =>
      owner <- getattr "applicant_id" Application.applicant_id (Some app) ;;
      tail <- owned_by applicant_id rest ;;
      ret (if owner =? applicant_id then app :: tail else tail)
  end.

Definition get_applications_by_applicant (applicant_id : Z)
    : M (t * Env) (list loc) :=
  apps <- self_get (fun self => dict_values (applications self)) ;;
  lift_env (owned_by applicant_id apps).
End ApplicationService.

Module Evaluation.
Record t : Type := mk {
  evaluation_id : Z;
  application_id : Z;
  expert_id : Z;
  score : Z;
  comments : string
}.

Definition is_valid (self : t) : bool :=
  (0 <=? score self) && (score self <=? 100)
  && negb (String.eqb (comments self) "").
End Evaluation.

Module EvaluationService.
Record t : Type := mk {
  evaluations : gmap Z Evaluation.t;
  next_id : Z
}.

Definition init : t := mk ∅ 1.

Definition save_evaluation (application : option loc) (expert_id score : Z)
    (comments : string) : M (t * Env) (option Evaluation.t) :=
  s <- lift_env (getattr "state" Application.state application) ;;
  if negb (String.eqb (type_name s) "UnderReviewState") then
    lift_env (print "[EvaluationService] Cannot evaluate, application not under review") ;;
    ret None
  else
    eval_id <- self_get next_id ;;
    self_set (fun self => mk (evaluations self) (next_id self + 1)) ;;
    app_id <- lift_env (getattr "application_id" Application.application_id
                                application) ;;
    let evaluation := Evaluation.mk eval_id app_id expert_id score comments in
    self_set (fun self => mk (<[eval_id := evaluation]> (evaluations self))
                             (next_id self)) ;;
    lift_env (call "evaluate" Application_evaluate application) ;;
    lift_env (print ("[EvaluationService] Saved evaluation "
                     +:+ pretty eval_id)) ;;
    ret (Some evaluation).
End EvaluationService.

Module Decision.
Record t : Type := mk {
  decision_id : Z;
  application_id : Z;
  fund_holder_id : Z;
  status : string;
  notes : string
}.

Definition approve (self : t) : t :=
  mk (decision_id self) (application_id self) (fund_holder_id self)
     "APPROVED" (notes self).

Definition reject (self : t) : t :=
  mk (decision_id self) (application_id self) (fund_holder_id self)
     "REJECTED" (notes self).
End Decision.

Module DecisionService.
Record t : Type := mk {
  decisions : gmap Z Decision.t;
  next_id : Z
}.

Definition init : t := mk ∅ 1.

Definition assign_experts (application : option loc) (expert_ids : list Z)
    : M (t * Env) unit :=
  app_id <- lift_env (getattr "application_id" Application.application_id
                              application) ;;
  lift_env (print ("[DecisionService] Assigned experts " +:+ str_list expert_ids
                   +:+ " to application " +:+ pretty app_id)).

Definition save_decision (application : option loc) (fund_holder_id : Z)
    (status notes : string) : M (t * Env) unit :=
  decision_id <- self_get next_id ;;
  self_set (fun self => mk (decisions self) (next_id self + 1)) ;;
  app_id <- lift_env (getattr "application_id" Application.application_id
                              application) ;;
  let decision := Decision.mk decision_id app_id fund_holder_id status notes in
  (if String.eqb status "APPROVED"
   then lift_env (call "make_decision"
                       (fun a => Application_make_decision a "APPROVED")
                       application)
   else lift_env (call "make_decision"
                       (fun a => Application_make_decision a "REJECTED")
                       application)) ;;
  self_set (fun self => mk (<[decision_id := decision]> (decisions self))
                           (next_id self)) ;;
  lift_env (print ("[DecisionService] Saved decision " +:+ pretty decision_id
                   +:+ " with status " +:+ status)).
End DecisionService.

Module SystemFacade.
Record t : Type := mk {
  application_service : ApplicationService.t;
  evaluation_service : EvaluationService.t;
  decision_service : DecisionService.t
}.

Definition init : t :=
  mk ApplicationService.init EvaluationService.init DecisionService.init.

Definition on_application_service {A} : M (ApplicationService.t * Env) A -> M (t * Env) A :=
  zoom application_service
       (fun s self => mk s (evaluation_service self) (decision_service self)).

Definition on_evaluation_service {A} : M (EvaluationService.t * Env) A -> M (t * Env) A :=
  zoom evaluation_service
       (fun s self => mk (application_service self) s (decision_service self)).

Definition on_decision_service {A} : M (DecisionService.t * Env) A -> M (t * Env) A :=
  zoom decision_service
       (fun s self => mk (application_service self) (evaluation_service self) s).

(** [self.application_service.applications.get(application_id)] *)
Definition lookup_application (application_id : Z) : M (t * Env) (option loc) :=
  self_get (fun self =>
    dict_get (ApplicationService.applications (application_service self))
             application_id).

Definition submit_application (applicant_id : Z) (title description : string)
    : M (t * Env) loc :=
  app <- on_application_service
           (ApplicationService.create_application title description
                                                  applicant_id) ;;
  lift_env (Application_submit app) ;;
  ret app.

(** The loop body of [view_status], for each application in turn. *)
Fixpoint print_statuses (apps : list loc) : M Env unit :=
  match apps with
  | [] => ret tt
  | app :: rest =>
      id <- getattr "application_id" Application.application_id (Some app) ;;
      name <- Application_get_state app ;;
      print ("[Status] Application " +:+ pretty id +:+ ": " +:+ name) ;;
      print_statuses rest
  end.

Definition view_status (applicant_id : Z) : M (t * Env) unit :=
  apps <- on_application_service
            (ApplicationService.get_applications_by_applicant applicant_id) ;;
  lift_env (print_statuses apps).

Definition withdraw_application (applicant_id application_id : Z)
    : M (t * Env) unit :=
  app <- lookup_application application_id ;;
  cond <- match app with
          | None => ret false
          | Some _ =>
              owner <- lift_env (getattr "applicant_id"
                                         Application.applicant_id app) ;;
              ret (owner =? applicant_id)
          end ;;
  if cond : bool
  then lift_env (call "withdraw" Application_withdraw app)
  else lift_env (print "[Facade] Application not found or access denied").

Definition evaluate_application (expert_id application_id score : Z)
    (comments : string) : M (t * Env) unit :=
  app <- lookup_application application_id ;;
  on_evaluation_service
    (EvaluationService.save_evaluation app expert_id score comments) ;;
  ret tt.

Definition assign_experts (fund_holder_id application_id : Z)
    (expert_ids : list Z) : M (t * Env) unit :=
  app <- lookup_application application_id ;;
  on_decision_service (DecisionService.assign_experts app expert_ids).

Definition make_decision (fund_holder_id application_id : Z)
    (status notes : string) : M (t * Env) unit :=
  app <- lookup_application application_id ;;
  on_decision_service
    (DecisionService.save_decision app fund_holder_id status notes).
End SystemFacade.

(** The world right after [SystemFacade()]. *)
Definition fresh_env : Env := mkEnv [] [].
Definition fresh_world : SystemFacade.t * Env := (SystemFacade.init, fresh_env).

(** The scenario of the script's [__main__] block. *)
Definition main : M (SystemFacade.t * Env) unit :=
  app1 <- SystemFacade.submit_application 1 "Project X" "Description X" ;;
  SystemFacade.view_status 1 ;;
  app1_id <- lift_env (getattr "application_id" Application.application_id
                               (Some app1)) ;;
  SystemFacade.assign_experts 3 app1_id [2] ;;
  SystemFacade.evaluate_application 2 app1_id 85 "Good work" ;;
  SystemFacade.view_status 1 ;;
  SystemFacade.make_decision 3 app1_id "APPROVED" "Excellent" ;;
  SystemFacade.view_status 1.

(** ** The lifecycle as a machine driven by operations *)

Inductive Operation : Type :=
| Submit
| Review
| EvaluateTransition
| Withdraw
| Decide (outcome : string).

Definition perform (op : Operation) (self : loc) : M Env unit :=
  match op with
  | Submit => Application_submit self
  | Review => Application_start_review self
  | EvaluateTransition => Application_evaluate self
  | Withdraw => Application_withdraw self
  | Decide outcome => Application_make_decision self outcome
  end.

Fixpoint perform_all (ops : list Operation) (self : loc) : M Env unit :=
  match ops with
  | [] => ret tt
  | op :: rest => perform op self ;; perform_all rest self
  end.

(** The transition table of the specification: [Some s'] where the table
    marks a transition to [s'], [None] where it says no-op or rejected. *)
Definition table (s : ApplicationState) (op : Operation) : option ApplicationState :=
  match s, op with
  | SubmittedState, Review => Some UnderReviewState
  | SubmittedState, Withdraw => Some WithdrawnState
  | UnderReviewState, EvaluateTransition => Some EvaluatedState
  | UnderReviewState, Withdraw => Some WithdrawnState
  | EvaluatedState, Decide outcome =>
      Some (if String.eqb outcome "APPROVED" then ApprovedState else RejectedState)
  | _, _ => None
  end.

Definition target (s : ApplicationState) (op : Operation) : ApplicationState :=
  default s (table s op).

(** The state of the instance at address [a], if there is one. *)
Definition state_at (w : Env) (a : loc) : option ApplicationState :=
  Application.state <$> heap w !! a.

(** The state after a sequence of operations, read off the table. *)
Definition targets (ops : list Operation) (s : ApplicationState) : ApplicationState :=
  fold_left target ops s.

(** The forward graph of the specification:
    Submitted -> UnderReview -> Evaluated -> {Approved | Rejected},
    Submitted | UnderReview -> Withdrawn. *)
Inductive edge : ApplicationState -> ApplicationState -> Prop :=
| edge_review : edge SubmittedState UnderReviewState
| edge_evaluate : edge UnderReviewState EvaluatedState
| edge_approve : edge EvaluatedState ApprovedState
| edge_reject : edge EvaluatedState RejectedState
| edge_withdraw_submitted : edge SubmittedState WithdrawnState
| edge_withdraw_under_review : edge UnderReviewState WithdrawnState.

Definition terminal (s : ApplicationState) : Prop :=
  s = WithdrawnState \/ s = ApprovedState \/ s = RejectedState.

(** Distance from [SubmittedState] along the graph. *)
Definition rank (s : ApplicationState) : nat :=
  match s with
  | SubmittedState => 0
  | UnderReviewState => 1
  | EvaluatedState => 2
  | WithdrawnState => 2
  | ApprovedState => 3
  | RejectedState => 3
  end.

(** An environment holding one application in state [s]. *)
Definition env_with (s : ApplicationState) : Env :=
  mkEnv [Application.mk 1 "Project X" "Description X" 1 s] [].

(** Requests served one after the other, as a caller's loop would do.
    [create_all] and [evaluate_all] collect the ids of the records they get
    back; [save_decision] returns nothing, its records are read from the
    store. *)
Fixpoint create_all (requests : list (string * string * Z))
    : M (ApplicationService.t * Env) (list Z) :=
  match requests with
  | [] => ret []
  | (title, description, applicant_id) :: rest =>
      app <- ApplicationService.create_application title description
                                                   applicant_id ;;
      id <- lift_env (getattr "application_id" Application.application_id
                              (Some app)) ;;
      ids <- create_all rest ;;
      ret (id :: ids)
  end.

Fixpoint evaluate_all (requests : list (loc * Z * Z * string))
    : M (EvaluationService.t * Env) (list Z) :=
  match requests with
  | [] => ret []
  | (app, expert_id, score, comments) :: rest =>
      r <- EvaluationService.save_evaluation (Some app) expert_id score
                                             comments ;;
      ids <- evaluate_all rest ;;
      ret (match r with
           | Some ev => Evaluation.evaluation_id ev :: ids
           | None => ids
           end)
  end.

Fixpoint decide_all (requests : list (loc * Z * string * string))
    : M (DecisionService.t * Env) unit :=
  match requests with
  | [] => ret tt
  | (app, fund_holder_id, status, notes) :: rest =>
      DecisionService.save_decision (Some app) fund_holder_id status notes ;;
      decide_all rest
  end.

(** The names the specification gives to the six lifecycle states. *)
Definition symbol (s : ApplicationState) : string :=
  match s with
  | SubmittedState => "Submitted"
  | UnderReviewState => "UnderReview"
  | EvaluatedState => "Evaluated"
  | WithdrawnState => "Withdrawn"
  | ApprovedState => "Approved"
  | RejectedState => "Rejected"
  end.

(** The line [view_status] prints for an application. *)
Definition status_line (obj : Application.t) : string :=
  "[Status] Application " +:+ pretty (Application.application_id obj) +:+ ": "
  +:+ type_name (Application.state obj).

(** The owner recorded in the instance at address [a], if there is one. *)
Definition owner_at (w : Env) (a : loc) : option Z :=
  Application.applicant_id <$> heap w !! a.

(** The whole path of one application as a caller drives it: the facade
    creates it, the caller starts the review on the object it got back, then
    the expert's evaluation and the fund holder's decision go through the
    facade. *)
Definition full_path (applicant_id : Z) (title description : string)
    (expert_id score : Z) (comments : string)
    (fund_holder_id : Z) (status notes : string)
    : M (SystemFacade.t * Env) loc :=
  app <- SystemFacade.submit_application applicant_id title description ;;
  lift_env (Application_start_review app) ;;
  id <- lift_env (getattr "application_id" Application.application_id
                          (Some app)) ;;
  SystemFacade.evaluate_application expert_id id score comments ;;
  SystemFacade.make_decision fund_holder_id id status notes ;;
  ret app.

(** A script that talks to the facade only: a list of calls, run in order;
    an uncaught exception ends the run. *)
Inductive FacadeCall : Type :=
| SubmitApplication (applicant_id : Z) (title description : string)
| ViewStatus (applicant_id : Z)
| WithdrawApplication (applicant_id application_id : Z)
| EvaluateApplication (expert_id application_id score : Z) (comments : string)
| AssignExperts (fund_holder_id application_id : Z) (expert_ids : list Z)
| MakeDecision (fund_holder_id application_id : Z) (status notes : string).

Definition facade_call (c : FacadeCall) : M (SystemFacade.t * Env) unit :=
  match c with
  | SubmitApplication applicant_id title description =>
      SystemFacade.submit_application applicant_id title description ;; ret tt
  | ViewStatus applicant_id => SystemFacade.view_status applicant_id
  | WithdrawApplication applicant_id application_id =>
      SystemFacade.withdraw_application applicant_id application_id
  | EvaluateApplication expert_id application_id score comments =>
      SystemFacade.evaluate_application expert_id application_id score comments
  | AssignExperts fund_holder_id application_id expert_ids =>
      SystemFacade.assign_experts fund_holder_id application_id expert_ids
  | MakeDecision fund_holder_id application_id status notes =>
      SystemFacade.make_decision fund_holder_id application_id status notes
  end.

Fixpoint facade_calls (cs : list FacadeCall) : M (SystemFacade.t * Env) unit :=
  match cs with
  | [] => ret tt
  | c :: rest => facade_call c ;; facade_calls rest
  end.

(** Every object is Submitted or Withdrawn. *)
Definition states_ok (e : Env) : Prop :=
  Forall (fun obj => Application.state obj = SubmittedState
                     \/ Application.state obj = WithdrawnState) (heap e).

(** The registry holds the ids from 1 up to the counter, each with an object
    that carries this id. *)
Definition registry_ok (reg : ApplicationService.t) (e : Env) : Prop :=
  1 <= ApplicationService.next_id reg
  /\ Forall (fun p : Z * loc =>
               1 <= p.1 < ApplicationService.next_id reg
               /\ exists obj, heap e !! p.2 = Some obj
                              /\ Application.application_id obj = p.1)
            (ApplicationService.applications reg)
  /\ (forall k, 1 <= k < ApplicationService.next_id reg ->
                is_Some (dict_get (ApplicationService.applications reg) k)).

Definition facade_inv (fw : SystemFacade.t * Env) : Prop :=
  registry_ok (SystemFacade.application_service fw.1) fw.2
  /\ states_ok fw.2
  /\ SystemFacade.evaluation_service fw.1 = EvaluationService.init.

(** An environment holding three applications under review. *)
Definition three_under_review : Env :=
  mkEnv [Application.mk 1 "Project X" "Description X" 1 UnderReviewState;
         Application.mk 2 "Project Y" "Description Y" 2 UnderReviewState;
         Application.mk 3 "Project Z" "Description Z" 1 UnderReviewState] [].

(** Whether a text has no line feed in it, so that printing it gives one
    line of output. *)
Fixpoint one_line (text : string) : bool :=
  match text with
  | EmptyString => true
  | String c rest => negb (Ascii.eqb c "010"%char) && one_line rest
  end.

(** * Properties *)

Lemma with_state_same (obj : Application.t) :
  Application.with_state (Application.state obj) obj = obj.
Proof. by destruct obj. Qed.

Lemma state_with_state s (obj : Application.t) :
  Application.state (Application.with_state s obj) = s.
Proof. done. Qed.

Lemma type_name_inj s1 s2 : type_name s1 = type_name s2 -> s1 = s2.
Proof. by destruct s1, s2. Qed.

Lemma env_eta (w : Env) : mkEnv (heap w) (stdout w) = w.
Proof. by destruct w. Qed.

Lemma set_state_run (w : Env) a obj s :
  heap w !! a = Some obj ->
  Application_set_state a s w
  = (Return tt, mkEnv (<[a := Application.with_state s obj]> (heap w)) (stdout w)).
Proof. intros H. unfold Application_set_state. by rewrite H. Qed.

(** Every operation returns normally, writes the instance with the state the
    table gives, and prints at most one line. *)
Lemma perform_run (w : Env) a obj op :
  heap w !! a = Some obj ->
  exists lines,
    perform op a w
    = (Return tt,
       mkEnv (<[a := Application.with_state (target (Application.state obj) op) obj]>
                (heap w))
             (stdout w ++ lines))
    /\ (length lines <= 1)%nat.
Proof.
  intros Ha.
  assert (Hid : <[a := obj]> (heap w) = heap w) by by apply list_insert_id.
  destruct obj as [i t d o s]; unfold target; simpl in *.
  destruct s, op; simpl;
    unfold Application_submit, Application_start_review, Application_evaluate,
      Application_withdraw, Application_make_decision, bind, getattr;
    rewrite Ha; simpl;
    try (eexists [_]; split; [unfold Application.with_state; simpl; rewrite Hid; reflexivity | simpl; lia]);
    try (exists []; split; [unfold Application.with_state; simpl; rewrite Hid, app_nil_r, env_eta; reflexivity | simpl; lia]).
  all: unfold SubmittedState.review, SubmittedState.withdraw,
         UnderReviewState.evaluate, UnderReviewState.withdraw,
         EvaluatedState.decide, bind; simpl.
  all: try destruct (String.eqb outcome "APPROVED").
  all: erewrite set_state_run by (simpl; exact Ha).
  all: eexists [_]; split; [reflexivity | simpl; lia].
Qed.

Lemma bind_return {W A B} (m : M W A) (k : A -> M W B) w x w' :
  m w = (Return x, w') -> bind m k w = k x w'.
Proof. intros H. unfold bind. by rewrite H. Qed.

Lemma get_state_run (w : Env) a obj :
  heap w !! a = Some obj ->
  Application_get_state a w = (Return (type_name (Application.state obj)), w).
Proof. intros H. unfold Application_get_state, getattr. by rewrite H. Qed.

Lemma state_at_insert (w : Env) a obj s out :
  heap w !! a = Some obj ->
  state_at (mkEnv (<[a := Application.with_state s obj]> (heap w)) out) a = Some s.
Proof.
  intros H. unfold state_at; simpl.
  rewrite list_lookup_insert_eq; [done | by eapply lookup_lt_Some].
Qed.

Lemma perform_all_run ops : forall (w : Env) a obj,
  heap w !! a = Some obj ->
  exists lines,
    perform_all ops a w
    = (Return tt,
       mkEnv (<[a := Application.with_state (targets ops (Application.state obj)) obj]>
                (heap w))
             (stdout w ++ lines)).
Proof.
  induction ops as [|op ops IH]; intros w a obj Ha; simpl.
  - exists []. unfold ret. rewrite with_state_same, list_insert_id by done.
    by rewrite app_nil_r, env_eta.
  - destruct (perform_run w a obj op Ha) as (l1 & Hrun & _).
    erewrite bind_return by exact Hrun.
    set (obj1 := Application.with_state (target (Application.state obj) op) obj).
    assert (Hlt : (a < length (heap w))%nat) by by eapply lookup_lt_Some.
    destruct (IH (mkEnv (<[a := obj1]> (heap w)) (stdout w ++ l1)) a obj1)
      as (l2 & Hrest).
    { simpl. by rewrite list_lookup_insert_eq. }
    exists (l1 ++ l2). rewrite Hrest. simpl.
    by rewrite list_insert_insert_eq, app_assoc.
Qed.

(** ** The lifecycle *)

(** C1: from the Submitted state, [start_review], then [evaluate], then
    [make_decision("APPROVED")] ends in the Approved state; with any other
    string as the decision it ends in the Rejected state. *)
Theorem review_evaluate_decide (w : Env) a obj decision :
  heap w !! a = Some obj ->
  Application.state obj = SubmittedState ->
  exists w',
    (Application_start_review a ;;
     Application_evaluate a ;;
     Application_make_decision a decision) w = (Return tt, w')
    /\ (decision = "APPROVED" ->
        state_at w' a = Some ApprovedState
        /\ Application_get_state a w' = (Return "ApprovedState", w'))
    /\ (decision <> "APPROVED" ->
        state_at w' a = Some RejectedState
        /\ Application_get_state a w' = (Return "RejectedState", w')).
Proof.
  intros Ha Hs.
  destruct (perform_all_run [Review; EvaluateTransition; Decide decision] w a obj Ha)
    as (lines & Hrun).
  simpl in Hrun. unfold bind in Hrun |- *.
  destruct (Application_start_review a w) as [[[]| |] w1]; try discriminate.
  destruct (Application_evaluate a w1) as [[[]| |] w2]; try discriminate.
  destruct (Application_make_decision a decision w2) as [[[]| |] w3]; try discriminate.
  unfold ret in Hrun. injection Hrun as ->.
  eexists; split; [reflexivity|].
  assert (Hlt : (a < length (heap w))%nat) by by eapply lookup_lt_Some.
  rewrite Hs. unfold targets; simpl. unfold target at 2 3; simpl.
  unfold target; simpl.
  split; intros Hd.
  - apply String.eqb_eq in Hd. rewrite Hd. split.
    + by eapply state_at_insert.
    + rewrite (get_state_run _ a (Application.with_state ApprovedState obj));
        [done|]. simpl. by rewrite list_lookup_insert_eq.
  - apply String.eqb_neq in Hd. rewrite Hd. split.
    + by eapply state_at_insert.
    + rewrite (get_state_run _ a (Application.with_state RejectedState obj));
        [done|]. simpl. by rewrite list_lookup_insert_eq.
Qed.

Lemma review_evaluate_decide_witness :
  exists w',
    (Application_start_review 0%nat ;;
     Application_evaluate 0%nat ;;
     Application_make_decision 0%nat "APPROVED") (env_with SubmittedState)
    = (Return tt, w')
    /\ ("APPROVED" = "APPROVED" ->
        state_at w' 0%nat = Some ApprovedState
        /\ Application_get_state 0%nat w' = (Return "ApprovedState", w'))
    /\ ("APPROVED" <> "APPROVED" ->
        state_at w' 0%nat = Some RejectedState
        /\ Application_get_state 0%nat w' = (Return "RejectedState", w')).
Proof.
  apply (review_evaluate_decide (env_with SubmittedState) 0%nat
           (Application.mk 1 "Project X" "Description X" 1 SubmittedState)
           "APPROVED"); reflexivity.
Defined.

(** C2: an operation that the transition table does not mark as a transition
    for the current state returns normally and leaves the application, and so
    its state name, unchanged; it prints nothing or one line. *)
Theorem unmarked_operation_keeps_state (w : Env) a obj op :
  heap w !! a = Some obj ->
  table (Application.state obj) op = None ->
  exists w',
    perform op a w = (Return tt, w')
    /\ heap w' = heap w
    /\ fst (Application_get_state a w') = fst (Application_get_state a w)
    /\ (stdout w' = stdout w \/ exists line, stdout w' = stdout w ++ [line]).
Proof.
  intros Ha Ht.
  destruct (perform_run w a obj op Ha) as (lines & Hrun & Hlen).
  unfold target in Hrun. rewrite Ht in Hrun. simpl in Hrun.
  rewrite with_state_same, list_insert_id in Hrun by done.
  eexists; split; [exact Hrun|]. simpl. split; [done|]. split.
  - by rewrite !(get_state_run _ a obj).
  - destruct lines as [|l [|l' ls]]; simpl in Hlen; try lia.
    + left. by rewrite app_nil_r.
    + right. by exists l.
Qed.

Lemma unmarked_operation_keeps_state_witness :
  exists w',
    perform Withdraw 0%nat (env_with EvaluatedState) = (Return tt, w')
    /\ heap w' = heap (env_with EvaluatedState)
    /\ fst (Application_get_state 0%nat w')
       = fst (Application_get_state 0%nat (env_with EvaluatedState))
    /\ (stdout w' = stdout (env_with EvaluatedState)
        \/ exists line, stdout w' = stdout (env_with EvaluatedState) ++ [line]).
Proof.
  apply (unmarked_operation_keeps_state (env_with EvaluatedState) 0%nat
           (Application.mk 1 "Project X" "Description X" 1 EvaluatedState)
           Withdraw); reflexivity.
Defined.

Lemma target_edge s op : target s op = s \/ edge s (target s op).
Proof.
  destruct s, op; unfold target; simpl; auto using edge.
  destruct (String.eqb outcome "APPROVED"); auto using edge.
Qed.

Lemma targets_forward ops : forall s, rtc edge s (targets ops s).
Proof.
  induction ops as [|op ops IH]; intros s; simpl; [constructor|].
  destruct (target_edge s op) as [-> | He]; [apply IH|].
  eapply rtc_l; [exact He | apply IH].
Qed.

Lemma edge_rank s t : edge s t -> (rank s < rank t)%nat.
Proof. destruct 1; simpl; lia. Qed.

Lemma tc_edge_rank s t : tc edge s t -> (rank s < rank t)%nat.
Proof.
  induction 1 as [s t He | s t u He _ IH].
  - by apply edge_rank.
  - apply edge_rank in He. lia.
Qed.

Lemma rtc_edge_rank s t : rtc edge s t -> (rank s <= rank t)%nat.
Proof.
  induction 1 as [s | s t u He _ IH]; [lia|].
  apply edge_rank in He. lia.
Qed.

Lemma terminal_no_edge s t : terminal s -> ~ edge s t.
Proof. intros [-> | [-> | ->]] He; inversion He. Qed.

Lemma terminal_stays s t : terminal s -> rtc edge s t -> s = t.
Proof.
  intros Hs Hr. destruct Hr as [|s t u He _]; [done|].
  by destruct (terminal_no_edge s t Hs).
Qed.

Lemma withdrawn_targets ops : targets ops WithdrawnState = WithdrawnState.
Proof.
  symmetry. apply terminal_stays; [by left | apply targets_forward].
Qed.

(** C3: [withdraw] changes the state exactly when the application is Submitted
    or UnderReview, and the new state is then Withdrawn; once the application
    is Withdrawn, every sequence of operations leaves it Withdrawn. *)
Theorem withdraw_iff_submitted_or_under_review (w : Env) a obj :
  heap w !! a = Some obj ->
  exists w' s',
    Application_withdraw a w = (Return tt, w')
    /\ state_at w' a = Some s'
    /\ (s' <> Application.state obj <->
        Application.state obj = SubmittedState
        \/ Application.state obj = UnderReviewState)
    /\ (s' <> Application.state obj -> s' = WithdrawnState)
    /\ (Application.state obj = WithdrawnState ->
        forall ops, exists w'',
          perform_all ops a w = (Return tt, w'')
          /\ state_at w'' a = Some WithdrawnState).
Proof.
  intros Ha.
  destruct (perform_run w a obj Withdraw Ha) as (lines & Hrun & _).
  simpl in Hrun. eexists _, _. split; [exact Hrun|].
  split; [by eapply state_at_insert|].
  split; [|split].
  - destruct (Application.state obj); unfold target; simpl;
      intuition congruence.
  - destruct (Application.state obj); unfold target; simpl;
      intuition congruence.
  - intros Hw ops.
    destruct (perform_all_run ops w a obj Ha) as (lines' & Hall).
    eexists; split; [exact Hall|].
    rewrite Hw, withdrawn_targets. by eapply state_at_insert.
Qed.

Lemma withdraw_iff_submitted_or_under_review_witness :
  exists w' s',
    Application_withdraw 0%nat (env_with UnderReviewState) = (Return tt, w')
    /\ state_at w' 0%nat = Some s'
    /\ (s' <> UnderReviewState <->
        UnderReviewState = SubmittedState \/ UnderReviewState = UnderReviewState)
    /\ (s' <> UnderReviewState -> s' = WithdrawnState)
    /\ (UnderReviewState = WithdrawnState ->
        forall ops, exists w'',
          perform_all ops 0%nat (env_with UnderReviewState) = (Return tt, w'')
          /\ state_at w'' 0%nat = Some WithdrawnState).
Proof.
  apply (withdraw_iff_submitted_or_under_review (env_with UnderReviewState) 0%nat
           (Application.mk 1 "Project X" "Description X" 1 UnderReviewState)).
  reflexivity.
Defined.

(** C6: whatever the state of an application, a sequence of the five
    operations returns normally and leaves it in a state that the forward
    graph reaches from the starting state; no path of the graph leads from the
    final state back to the starting one; and from Withdrawn, Approved and
    Rejected the state never changes. *)
Theorem lifecycle_never_moves_backward (w : Env) a obj ops :
  heap w !! a = Some obj ->
  exists w' s',
    perform_all ops a w = (Return tt, w')
    /\ state_at w' a = Some s'
    /\ rtc edge (Application.state obj) s'
    /\ ~ tc edge s' (Application.state obj)
    /\ (terminal (Application.state obj) -> s' = Application.state obj).
Proof.
  intros Ha.
  destruct (perform_all_run ops w a obj Ha) as (lines & Hall).
  pose proof (targets_forward ops (Application.state obj)) as Hfwd.
  eexists _, _. split; [exact Hall|].
  split; [by eapply state_at_insert|].
  split; [exact Hfwd|]. split.
  - intros Hback. apply tc_edge_rank in Hback. apply rtc_edge_rank in Hfwd. lia.
  - intros Hterm. symmetry. by apply terminal_stays.
Qed.

Lemma lifecycle_never_moves_backward_witness :
  exists w' s',
    perform_all [Review; Submit; Withdraw; Decide "APPROVED"] 0%nat
                (env_with SubmittedState) = (Return tt, w')
    /\ state_at w' 0%nat = Some s'
    /\ rtc edge SubmittedState s'
    /\ ~ tc edge s' SubmittedState
    /\ (terminal SubmittedState -> s' = SubmittedState).
Proof.
  apply (lifecycle_never_moves_backward (env_with SubmittedState) 0%nat
           (Application.mk 1 "Project X" "Description X" 1 SubmittedState)
           [Review; Submit; Withdraw; Decide "APPROVED"]).
  reflexivity.
Defined.

(** ** The services *)

Lemma getattr_run {A} name (field : Application.t -> A) (w : Env) a obj :
  heap w !! a = Some obj ->
  getattr name field (Some a) w = (Return (field obj), w).
Proof. intros H. unfold getattr. by rewrite H. Qed.

Lemma under_review_name s :
  String.eqb (type_name s) "UnderReviewState" = bool_decide (s = UnderReviewState).
Proof. by destruct s. Qed.

Lemma String_eqb_decide (s1 s2 : string) :
  String.eqb s1 s2 = bool_decide (s1 = s2).
Proof.
  case_bool_decide as Hd.
  - by apply String.eqb_eq.
  - by apply String.eqb_neq.
Qed.

Lemma evaluate_under_review (w : Env) a obj :
  heap w !! a = Some obj ->
  Application.state obj = UnderReviewState ->
  Application_evaluate a w
  = (Return tt,
     mkEnv (<[a := Application.with_state EvaluatedState obj]> (heap w))
           (stdout w ++ ["[UnderReviewState] Evaluating application"])).
Proof.
  intros Ha Hs. unfold Application_evaluate, bind.
  rewrite (getattr_run _ _ _ _ _ Ha), Hs. cbn [ApplicationState_evaluate].
  unfold UnderReviewState.evaluate, bind, print, modify.
  by erewrite set_state_run by exact Ha.
Qed.

Lemma save_evaluation_refused (self : EvaluationService.t) (w : Env) a obj
    (expert_id score : Z) (comments : string) :
  heap w !! a = Some obj ->
  Application.state obj <> UnderReviewState ->
  EvaluationService.save_evaluation (Some a) expert_id score comments (self, w)
  = (Return None,
     (self,
      mkEnv (heap w)
            (stdout w
             ++ ["[EvaluationService] Cannot evaluate, application not under review"]))).
Proof.
  intros Ha Hs.
  unfold EvaluationService.save_evaluation, bind, lift_env; cbn [fst snd].
  rewrite (getattr_run _ _ _ _ _ Ha), under_review_name.
  by rewrite bool_decide_eq_false_2 by done.
Qed.

Lemma save_evaluation_accepted (self : EvaluationService.t) (w : Env) a obj
    (expert_id score : Z) (comments : string) :
  heap w !! a = Some obj ->
  Application.state obj = UnderReviewState ->
  let ev := Evaluation.mk (EvaluationService.next_id self)
                          (Application.application_id obj)
                          expert_id score comments in
  EvaluationService.save_evaluation (Some a) expert_id score comments (self, w)
  = (Return (Some ev),
     (EvaluationService.mk
        (<[EvaluationService.next_id self := ev]> (EvaluationService.evaluations self))
        (EvaluationService.next_id self + 1),
      mkEnv (<[a := Application.with_state EvaluatedState obj]> (heap w))
            ((stdout w ++ ["[UnderReviewState] Evaluating application"])
             ++ ["[EvaluationService] Saved evaluation "
                 +:+ pretty (EvaluationService.next_id self)]))).
Proof.
  intros Ha Hs ev.
  unfold EvaluationService.save_evaluation, bind, lift_env; cbn [fst snd].
  rewrite (getattr_run _ _ _ _ _ Ha), under_review_name.
  rewrite bool_decide_eq_true_2 by done. cbn -[Application_evaluate getattr].
  rewrite (getattr_run _ _ _ _ _ Ha). cbn -[Application_evaluate].
  by rewrite (evaluate_under_review w a obj Ha Hs).
Qed.

(** C4: on an application that is not UnderReview, [save_evaluation] returns
    [None] and changes nothing but the output (no record, same counter, same
    application); on an UnderReview application it stores and returns a record
    carrying the application's id and moves the application to Evaluated. *)
Theorem save_evaluation_guard (self : EvaluationService.t) (w : Env) a obj
    (expert_id score : Z) (comments : string) :
  heap w !! a = Some obj ->
  (Application.state obj <> UnderReviewState ->
   EvaluationService.save_evaluation (Some a) expert_id score comments (self, w)
   = (Return None,
      (self,
       mkEnv (heap w)
             (stdout w
              ++ ["[EvaluationService] Cannot evaluate, application not under review"]))))
  /\ (Application.state obj = UnderReviewState ->
      exists ev self' w',
        EvaluationService.save_evaluation (Some a) expert_id score comments (self, w)
        = (Return (Some ev), (self', w'))
        /\ ev = Evaluation.mk (EvaluationService.next_id self)
                              (Application.application_id obj)
                              expert_id score comments
        /\ EvaluationService.evaluations self' !! Evaluation.evaluation_id ev = Some ev
        /\ EvaluationService.next_id self' = EvaluationService.next_id self + 1
        /\ heap w' = <[a := Application.with_state EvaluatedState obj]> (heap w)
        /\ state_at w' a = Some EvaluatedState).
Proof.
  intros Ha. split; intros Hs.
  - by apply (save_evaluation_refused self w a obj).
  - eexists _, _, _.
    split; [by apply (save_evaluation_accepted self w a obj)|]. simpl.
    split; [done|]. split; [by rewrite lookup_insert_eq|].
    split; [done|]. split; [done|]. by eapply state_at_insert.
Qed.

Lemma save_evaluation_guard_witness :
  exists ev self' w',
    EvaluationService.save_evaluation (Some 0%nat) 2 85 "Good work"
      (EvaluationService.init, env_with UnderReviewState)
    = (Return (Some ev), (self', w'))
    /\ ev = Evaluation.mk 1 1 2 85 "Good work"
    /\ EvaluationService.evaluations self' !! Evaluation.evaluation_id ev = Some ev
    /\ EvaluationService.next_id self' = 1 + 1
    /\ heap w' = <[0%nat := Application.mk 1 "Project X" "Description X" 1
                                            EvaluatedState]>
                   (heap (env_with UnderReviewState))
    /\ state_at w' 0%nat = Some EvaluatedState.
Proof.
  apply (proj2 (save_evaluation_guard EvaluationService.init
                  (env_with UnderReviewState) 0%nat
                  (Application.mk 1 "Project X" "Description X" 1 UnderReviewState)
                  2 85 "Good work" eq_refl)).
  reflexivity.
Defined.

Lemma save_decision_run (self : DecisionService.t) (w : Env) a obj
    (fund_holder_id : Z) (status notes : string) :
  heap w !! a = Some obj ->
  let forwarded :=
    if bool_decide (status = "APPROVED") then "APPROVED" else "REJECTED" in
  forall w1,
    Application_make_decision a forwarded w = (Return tt, w1) ->
    DecisionService.save_decision (Some a) fund_holder_id status notes (self, w)
    = (Return tt,
       (DecisionService.mk
          (<[DecisionService.next_id self :=
               Decision.mk (DecisionService.next_id self)
                           (Application.application_id obj)
                           fund_holder_id status notes]>
             (DecisionService.decisions self))
          (DecisionService.next_id self + 1),
        mkEnv (heap w1)
              (stdout w1
               ++ ["[DecisionService] Saved decision "
                   +:+ pretty (DecisionService.next_id self)
                   +:+ " with status " +:+ status]))).
Proof.
  intros Ha forwarded w1 Hrun.
  unfold DecisionService.save_decision, bind, lift_env;
    cbn -[Application_make_decision getattr].
  rewrite (getattr_run _ _ _ _ _ Ha), String_eqb_decide. subst forwarded.
  destruct (bool_decide (status = "APPROVED"));
    cbn -[Application_make_decision]; rewrite Hrun; reflexivity.
Qed.

(** C5: [save_decision] takes the counter value as the decision id, advances
    the counter and stores under that id a record whose status is the given
    string; the application receives [make_decision("APPROVED")] when the
    status is exactly "APPROVED" and [make_decision("REJECTED")] otherwise;
    when the application is not Evaluated the record is stored all the same
    and the application is unchanged. *)
Theorem save_decision_records (self : DecisionService.t) (w : Env) a obj
    (fund_holder_id : Z) (status notes : string) :
  heap w !! a = Some obj ->
  let forwarded :=
    if bool_decide (status = "APPROVED") then "APPROVED" else "REJECTED" in
  let decision :=
    Decision.mk (DecisionService.next_id self) (Application.application_id obj)
                fund_holder_id status notes in
  exists w1,
    Application_make_decision a forwarded w = (Return tt, w1)
    /\ DecisionService.save_decision (Some a) fund_holder_id status notes (self, w)
       = (Return tt,
          (DecisionService.mk
             (<[DecisionService.next_id self := decision]>
                (DecisionService.decisions self))
             (DecisionService.next_id self + 1),
           mkEnv (heap w1)
                 (stdout w1
                  ++ ["[DecisionService] Saved decision "
                      +:+ pretty (DecisionService.next_id self)
                      +:+ " with status " +:+ status])))
    /\ Decision.status decision = status
    /\ (Application.state obj <> EvaluatedState -> heap w1 = heap w)
    /\ (Application.state obj = EvaluatedState ->
        state_at w1 a
        = Some (if bool_decide (status = "APPROVED")
                then ApprovedState else RejectedState)).
Proof.
  intros Ha forwarded decision.
  destruct (perform_run w a obj (Decide forwarded) Ha) as (lines & Hrun & _).
  cbn [perform] in Hrun.
  exists (mkEnv (<[a := Application.with_state
                          (target (Application.state obj) (Decide forwarded)) obj]>
                   (heap w))
                (stdout w ++ lines)).
  split; [exact Hrun|]. split; [|split; [done|split]].
  - by apply (save_decision_run self w a obj).
  - intros Hs. simpl.
    replace (target (Application.state obj) (Decide forwarded))
      with (Application.state obj)
      by (destruct (Application.state obj); done).
    rewrite with_state_same. by apply list_insert_id.
  - intros Hs. rewrite Hs. unfold target; simpl.
    replace (String.eqb forwarded "APPROVED")
      with (bool_decide (status = "APPROVED"))
      by (subst forwarded; by case_bool_decide).
    by eapply state_at_insert.
Qed.

Lemma save_decision_records_witness :
  exists w1,
    Application_make_decision 0%nat "REJECTED" (env_with UnderReviewState)
    = (Return tt, w1)
    /\ DecisionService.save_decision (Some 0%nat) 3 "approved" "typo"
         (DecisionService.init, env_with UnderReviewState)
       = (Return tt,
          (DecisionService.mk
             (<[1 := Decision.mk 1 1 3 "approved" "typo"]> ∅) (1 + 1),
           mkEnv (heap w1)
                 (stdout w1
                  ++ ["[DecisionService] Saved decision " +:+ pretty 1
                      +:+ " with status " +:+ "approved"])))
    /\ Decision.status (Decision.mk 1 1 3 "approved" "typo") = "approved"
    /\ (UnderReviewState <> EvaluatedState ->
        heap w1 = heap (env_with UnderReviewState))
    /\ (UnderReviewState = EvaluatedState ->
        state_at w1 0%nat = Some RejectedState).
Proof.
  apply (save_decision_records DecisionService.init (env_with UnderReviewState)
           0%nat
           (Application.mk 1 "Project X" "Description X" 1 UnderReviewState)
           3 "approved" "typo").
  reflexivity.
Defined.

(** ** The facade *)

(** C8: for an application in the registry, [withdraw_application] with a
    requesting id other than the owner's prints the refusal and changes
    nothing else, whatever the state of the application; with the owner's id
    it is the application's [withdraw]. *)
Theorem withdraw_application_checks_owner (self : SystemFacade.t) (w : Env)
    (applicant_id application_id : Z) a obj :
  dict_get (ApplicationService.applications (SystemFacade.application_service self))
           application_id = Some a ->
  heap w !! a = Some obj ->
  (applicant_id <> Application.applicant_id obj ->
   SystemFacade.withdraw_application applicant_id application_id (self, w)
   = (Return tt,
      (self,
       mkEnv (heap w)
             (stdout w ++ ["[Facade] Application not found or access denied"]))))
  /\ (applicant_id = Application.applicant_id obj ->
      SystemFacade.withdraw_application applicant_id application_id (self, w)
      = lift_env (Application_withdraw a) (self, w)).
Proof.
  intros Hget Ha.
  split; intros Hid;
    unfold SystemFacade.withdraw_application, SystemFacade.lookup_application,
      bind, self_get, gets; cbn [fst snd];
    rewrite Hget; unfold lift_env at 1; cbn [fst snd];
    rewrite (getattr_run _ _ _ _ _ Ha); unfold ret.
  - replace (Application.applicant_id obj =? applicant_id) with false
      by (symmetry; apply Z.eqb_neq; congruence).
    reflexivity.
  - replace (Application.applicant_id obj =? applicant_id) with true
      by (symmetry; apply Z.eqb_eq; congruence).
    reflexivity.
Qed.

Lemma withdraw_application_checks_owner_witness :
  SystemFacade.withdraw_application 7 1
    (SystemFacade.mk (ApplicationService.mk [(1, 0%nat)] 2)
                     EvaluationService.init DecisionService.init,
     env_with SubmittedState)
  = (Return tt,
     (SystemFacade.mk (ApplicationService.mk [(1, 0%nat)] 2)
                      EvaluationService.init DecisionService.init,
      mkEnv (heap (env_with SubmittedState))
            (stdout (env_with SubmittedState)
             ++ ["[Facade] Application not found or access denied"]))).
Proof.
  apply (proj1 (withdraw_application_checks_owner
                  (SystemFacade.mk (ApplicationService.mk [(1, 0%nat)] 2)
                                   EvaluationService.init DecisionService.init)
                  (env_with SubmittedState) 7 1 0%nat
                  (Application.mk 1 "Project X" "Description X" 1 SubmittedState)
                  eq_refl eq_refl)).
  discriminate.
Defined.

Lemma evaluate_application_missing (self : SystemFacade.t) (w : Env)
    (expert_id application_id score : Z) (comments : string) :
  dict_get (ApplicationService.applications (SystemFacade.application_service self))
           application_id = None ->
  SystemFacade.evaluate_application expert_id application_id score comments (self, w)
  = (Raise (AttributeError "'NoneType' object has no attribute 'state'"),
     (self, w)).
Proof.
  intros Hget.
  unfold SystemFacade.evaluate_application, SystemFacade.lookup_application,
    bind, self_get, gets; cbn [fst snd].
  rewrite Hget. by destruct self.
Qed.

Lemma make_decision_missing (self : SystemFacade.t) (w : Env)
    (fund_holder_id application_id : Z) (status notes : string) :
  dict_get (ApplicationService.applications (SystemFacade.application_service self))
           application_id = None ->
  SystemFacade.make_decision fund_holder_id application_id status notes (self, w)
  = (Raise (AttributeError "'NoneType' object has no attribute 'application_id'"),
     (SystemFacade.mk
        (SystemFacade.application_service self)
        (SystemFacade.evaluation_service self)
        (DecisionService.mk
           (DecisionService.decisions (SystemFacade.decision_service self))
           (DecisionService.next_id (SystemFacade.decision_service self) + 1)),
      w)).
Proof.
  intros Hget.
  unfold SystemFacade.make_decision, SystemFacade.lookup_application,
    bind, self_get, gets; cbn [fst snd].
  by rewrite Hget.
Qed.

(** C7: with an empty registry, [evaluate_application] and [make_decision] on
    application id 1 both end with an uncaught [AttributeError]; the latter
    has advanced the decision counter before it fails. *)
Theorem missing_application_raises :
  SystemFacade.evaluate_application 2 1 85 "Good work" fresh_world
  = (Raise (AttributeError "'NoneType' object has no attribute 'state'"),
     fresh_world)
  /\ SystemFacade.make_decision 3 1 "APPROVED" "Excellent" fresh_world
     = (Raise (AttributeError
                 "'NoneType' object has no attribute 'application_id'"),
        (SystemFacade.mk ApplicationService.init EvaluationService.init
                         (DecisionService.mk ∅ 2),
         fresh_env)).
Proof. split; reflexivity. Qed.

(** ** Identifiers *)

Lemma seqZ_succ m (n : nat) :
  seqZ m (Z.of_nat (S n)) = m :: seqZ (m + 1) (Z.of_nat n).
Proof.
  rewrite seqZ_cons by lia.
  by replace (Z.pred (Z.of_nat (S n))) with (Z.of_nat n) by lia.
Qed.

Lemma seqZ_increasing (n : nat) : forall m, StronglySorted Z.lt (seqZ m (Z.of_nat n)).
Proof.
  induction n as [|n IH]; intros m.
  - rewrite seqZ_nil by lia. constructor.
  - rewrite seqZ_succ. constructor; [apply IH|].
    apply Forall_seqZ. intros; lia.
Qed.

Lemma create_application_run (self : ApplicationService.t) (e : Env)
    (title description : string) (applicant_id : Z) :
  ApplicationService.create_application title description applicant_id (self, e)
  = (Return (length (heap e)),
     (ApplicationService.mk
        (dict_set (ApplicationService.applications self)
                  (ApplicationService.next_id self) (length (heap e)))
        (ApplicationService.next_id self + 1),
      mkEnv (heap e ++ [Application.mk (ApplicationService.next_id self) title
                                       description applicant_id SubmittedState])
            (stdout e ++ ["[ApplicationService] Created application "
                          +:+ pretty (ApplicationService.next_id self)]))).
Proof. reflexivity. Qed.

Lemma create_all_run requests : forall (self : ApplicationService.t) (e : Env),
  exists w',
    create_all requests (self, e)
    = (Return (seqZ (ApplicationService.next_id self)
                    (Z.of_nat (length requests))), w').
Proof.
  induction requests as [|[[title description] applicant] rest IH]; intros self e.
  - eexists. reflexivity.
  - cbn [create_all length]. rewrite seqZ_succ.
    erewrite bind_return by apply create_application_run.
    erewrite bind_return; cycle 1.
    { unfold lift_env; cbn [fst snd]. erewrite getattr_run; [reflexivity|].
      cbn [heap]. apply list_lookup_middle. reflexivity. }
    match goal with
    | |- context [bind (create_all rest) _ (?s, ?e')] =>
        destruct (IH s e') as (w' & Hrest)
    end.
    erewrite bind_return by exact Hrest.
    eexists. reflexivity.
Qed.

Lemma evaluate_all_run requests : forall (self : EvaluationService.t) (e : Env),
  NoDup (map (fun r => r.1.1.1) requests) ->
  Forall (fun r => state_at e r.1.1.1 = Some UnderReviewState) requests ->
  exists w',
    evaluate_all requests (self, e)
    = (Return (seqZ (EvaluationService.next_id self)
                    (Z.of_nat (length requests))), w').
Proof.
  induction requests as [|[[[a expert] score] comments] rest IH];
    intros self e Hnd Hall.
  - eexists. reflexivity.
  - cbn [evaluate_all length]. rewrite seqZ_succ.
    apply NoDup_cons in Hnd as [Hnotin Hnd].
    apply Forall_cons in Hall as [Ha Hall]. cbn [fst] in Ha, Hnotin.
    unfold state_at in Ha.
    destruct (heap e !! a) as [obj|] eqn:Hobj; [|discriminate].
    injection Ha as Hs.
    erewrite bind_return
      by (apply (save_evaluation_accepted self e a obj); assumption).
    match goal with
    | |- context [bind (evaluate_all rest) _ (?s, ?e')] =>
        destruct (IH s e') as (w' & Hrest)
    end.
    { exact Hnd. }
    { rewrite Forall_forall in Hall |- *. intros r Hin.
      specialize (Hall r Hin). unfold state_at in *. cbn [heap].
      rewrite list_lookup_insert_ne; [exact Hall|].
      intros ->. apply Hnotin. apply list_elem_of_fmap. by exists r. }
    erewrite bind_return by exact Hrest.
    eexists. reflexivity.
Qed.

Lemma decide_all_run requests : forall (self : DecisionService.t) (e : Env),
  Forall (fun r => is_Some (heap e !! r.1.1.1)) requests ->
  exists self' e',
    decide_all requests (self, e) = (Return tt, (self', e'))
    /\ DecisionService.next_id self'
       = DecisionService.next_id self + Z.of_nat (length requests)
    /\ (forall (i : nat) a fund_holder_id status notes,
          requests !! i = Some (a, fund_holder_id, status, notes) ->
          exists d,
            DecisionService.decisions self'
              !! (DecisionService.next_id self + Z.of_nat i) = Some d
            /\ Decision.decision_id d = DecisionService.next_id self + Z.of_nat i
            /\ Decision.fund_holder_id d = fund_holder_id
            /\ Decision.status d = status
            /\ Decision.notes d = notes)
    /\ (forall k,
          ~ (DecisionService.next_id self <= k
             < DecisionService.next_id self + Z.of_nat (length requests)) ->
          DecisionService.decisions self' !! k
          = DecisionService.decisions self !! k).
Proof.
  induction requests as [|[[[a fh] st] nt] rest IH]; intros self e Hall.
  - exists self, e. split; [reflexivity|]. split; [simpl; lia|].
    split; [intros i ? ? ? ? Hi; by rewrite lookup_nil in Hi | done].
  - apply Forall_cons in Hall as [[obj Ha] Hall]. cbn [fst] in Ha.
    set (forwarded := if bool_decide (st = "APPROVED")
                      then "APPROVED" else "REJECTED").
    destruct (perform_run e a obj (Decide forwarded) Ha) as (lines & Hrun & _).
    cbn [perform] in Hrun.
    cbn [decide_all].
    erewrite bind_return
      by (apply (save_decision_run self e a obj fh st nt Ha); exact Hrun).
    cbn [heap stdout].
    match goal with
    | |- context [decide_all rest (?s1, ?e1)] =>
        destruct (IH s1 e1) as (self' & e' & Hrest & Hnext & Hrec & Hout)
    end.
    { rewrite Forall_forall in Hall |- *. intros r Hin.
      destruct (Hall r Hin) as [obj' Hr]. cbn [heap].
      apply lookup_lt_is_Some. rewrite length_insert.
      by eapply lookup_lt_Some. }
    cbn [DecisionService.next_id DecisionService.decisions] in Hnext, Hrec, Hout.
    exists self', e'. split; [exact Hrest|].
    split; [cbn [length]; lia|]. split.
    + intros [|i] a' fh' st' nt' Hi.
      * cbn in Hi. injection Hi as <- <- <- <-.
        eexists. rewrite Z.add_0_r, Hout by lia.
        rewrite lookup_insert_eq. done.
      * cbn in Hi. destruct (Hrec i a' fh' st' nt' Hi) as (d & Hd & Hfields).
        exists d.
        replace (DecisionService.next_id self + Z.of_nat (S i))
          with (DecisionService.next_id self + 1 + Z.of_nat i) by lia.
        done.
    + intros k Hk. cbn [length] in Hk.
      rewrite Hout by lia. apply lookup_insert_ne. lia.
Qed.

Lemma submit_application_frame (fw : SystemFacade.t * Env) x s t :
  let self' := fst (snd (SystemFacade.submit_application x s t fw)) in
  SystemFacade.evaluation_service self' = SystemFacade.evaluation_service (fst fw)
  /\ SystemFacade.decision_service self' = SystemFacade.decision_service (fst fw).
Proof.
  destruct fw as [self e].
  unfold SystemFacade.submit_application, SystemFacade.on_application_service,
    zoom, bind, lift_env; cbn [fst snd].
  rewrite create_application_run.
  destruct (Application_submit _ _) as [[?| |] ?]; done.
Qed.

Lemma evaluate_application_frame (fw : SystemFacade.t * Env) x y z s :
  let self' := fst (snd (SystemFacade.evaluate_application x y z s fw)) in
  SystemFacade.application_service self' = SystemFacade.application_service (fst fw)
  /\ SystemFacade.decision_service self' = SystemFacade.decision_service (fst fw).
Proof.
  destruct fw as [self e].
  unfold SystemFacade.evaluate_application, SystemFacade.lookup_application,
    SystemFacade.on_evaluation_service, zoom, bind, self_get, gets;
    cbn [fst snd].
  destruct (EvaluationService.save_evaluation _ _ _ _ _) as [[?| |] [? ?]]; done.
Qed.

Lemma make_decision_frame (fw : SystemFacade.t * Env) x y s t :
  let self' := fst (snd (SystemFacade.make_decision x y s t fw)) in
  SystemFacade.application_service self' = SystemFacade.application_service (fst fw)
  /\ SystemFacade.evaluation_service self' = SystemFacade.evaluation_service (fst fw).
Proof.
  destruct fw as [self e].
  unfold SystemFacade.make_decision, SystemFacade.lookup_application,
    SystemFacade.on_decision_service, zoom, bind, self_get, gets;
    cbn [fst snd].
  destruct (DecisionService.save_decision _ _ _ _ _) as [[?| |] [? ?]]; done.
Qed.

(** C9: from a new registry, [n] calls of [create_application] give the
    applications the ids 1, 2, ..., [n] in call order; from a new Evaluation
    Service, [n] evaluations of distinct applications under review return
    records with the ids 1, ..., [n] in call order; from a new Decision
    Service, [n] calls of [save_decision] advance the counter to [n + 1] and
    store the record of call number [i + 1] under the id [i + 1], and under no
    other ids.  The ids 1, ..., [n] are pairwise distinct and strictly
    increasing.  Through the facade, creating an application, evaluating and
    deciding each leave the other two services, counters included, as they
    were. *)
Theorem ids_count_from_one :
  (forall (requests : list (string * string * Z)) (e : Env),
     exists w',
       create_all requests (ApplicationService.init, e)
       = (Return (seqZ 1 (Z.of_nat (length requests))), w'))
  /\ (forall (requests : list (loc * Z * Z * string)) (e : Env),
       NoDup (map (fun r => r.1.1.1) requests) ->
       Forall (fun r => state_at e r.1.1.1 = Some UnderReviewState) requests ->
       exists w',
         evaluate_all requests (EvaluationService.init, e)
         = (Return (seqZ 1 (Z.of_nat (length requests))), w'))
  /\ (forall (requests : list (loc * Z * string * string)) (e : Env),
       Forall (fun r => is_Some (heap e !! r.1.1.1)) requests ->
       exists self' e',
         decide_all requests (DecisionService.init, e) = (Return tt, (self', e'))
         /\ DecisionService.next_id self' = 1 + Z.of_nat (length requests)
         /\ (forall (i : nat) a fund_holder_id status notes,
               requests !! i = Some (a, fund_holder_id, status, notes) ->
               exists d,
                 DecisionService.decisions self' !! (1 + Z.of_nat i) = Some d
                 /\ Decision.decision_id d = 1 + Z.of_nat i
                 /\ Decision.fund_holder_id d = fund_holder_id
                 /\ Decision.status d = status
                 /\ Decision.notes d = notes)
         /\ (forall k,
               is_Some (DecisionService.decisions self' !! k) ->
               1 <= k <= Z.of_nat (length requests)))
  /\ (forall n : nat,
       NoDup (seqZ 1 (Z.of_nat n)) /\ StronglySorted Z.lt (seqZ 1 (Z.of_nat n)))
  /\ (forall (fw : SystemFacade.t * Env) (x y z : Z) (s t : string),
       let after_submit := fst (snd (SystemFacade.submit_application x s t fw)) in
       let after_evaluate :=
         fst (snd (SystemFacade.evaluate_application x y z s fw)) in
       let after_decide := fst (snd (SystemFacade.make_decision x y s t fw)) in
       SystemFacade.evaluation_service after_submit
       = SystemFacade.evaluation_service (fst fw)
       /\ SystemFacade.decision_service after_submit
          = SystemFacade.decision_service (fst fw)
       /\ SystemFacade.application_service after_evaluate
          = SystemFacade.application_service (fst fw)
       /\ SystemFacade.decision_service after_evaluate
          = SystemFacade.decision_service (fst fw)
       /\ SystemFacade.application_service after_decide
          = SystemFacade.application_service (fst fw)
       /\ SystemFacade.evaluation_service after_decide
          = SystemFacade.evaluation_service (fst fw)).
Proof.
  split; [|split; [|split; [|split]]]; cycle 4.
  { intros [self e] x y z s t. cbn zeta. repeat split.
    - apply submit_application_frame.
    - apply submit_application_frame.
    - apply evaluate_application_frame.
    - apply evaluate_application_frame.
    - apply make_decision_frame.
    - apply make_decision_frame. }
  - intros requests e. apply (create_all_run requests ApplicationService.init e).
  - intros requests e Hnd Hall.
    by apply (evaluate_all_run requests EvaluationService.init e).
  - intros requests e Hall.
    destruct (decide_all_run requests DecisionService.init e Hall)
      as (self' & e' & Hrun & Hnext & Hrec & Hout).
    cbn [DecisionService.init DecisionService.next_id DecisionService.decisions]
      in Hnext, Hrec, Hout.
    exists self', e'. split; [exact Hrun|]. split; [exact Hnext|].
    split; [exact Hrec|].
    intros k [d Hk].
    destruct (decide (1 <= k < 1 + Z.of_nat (length requests))) as [|Hno]; [lia|].
    rewrite (Hout k Hno), lookup_empty in Hk. discriminate.
  - intros n. split; [apply NoDup_seqZ | apply seqZ_increasing].
Qed.

Lemma ids_count_from_one_witness :
  (exists w',
     create_all [("Project X", "Description X", 1);
                 ("Project Y", "Description Y", 2);
                 ("Project Z", "Description Z", 1)]
                (ApplicationService.init, fresh_env)
     = (Return [1; 2; 3], w'))
  /\ (exists w',
        evaluate_all [(2%nat, 7, 85, "Good work"); (0%nat, 8, 40, "Weak");
                      (1%nat, 7, 99, "Excellent")]
                     (EvaluationService.init, three_under_review)
        = (Return [1; 2; 3], w'))
  /\ (exists self' e',
        decide_all [(0%nat, 5, "APPROVED", "first"); (0%nat, 6, "REJECTED", "second");
                    (2%nat, 5, "approved", "third")]
                   (DecisionService.init, three_under_review)
        = (Return tt, (self', e'))
        /\ DecisionService.next_id self' = 1 + Z.of_nat 3
        /\ (forall (i : nat) a fund_holder_id status notes,
              [(0%nat, 5, "APPROVED", "first"); (0%nat, 6, "REJECTED", "second");
               (2%nat, 5, "approved", "third")] !! i
              = Some (a, fund_holder_id, status, notes) ->
              exists d,
                DecisionService.decisions self' !! (1 + Z.of_nat i) = Some d
                /\ Decision.decision_id d = 1 + Z.of_nat i
                /\ Decision.fund_holder_id d = fund_holder_id
                /\ Decision.status d = status
                /\ Decision.notes d = notes)
        /\ (forall k,
              is_Some (DecisionService.decisions self' !! k) ->
              1 <= k <= Z.of_nat 3))
  /\ NoDup [1; 2; 3]
  /\ StronglySorted Z.lt [1; 2; 3].
Proof.
  split; [|split; [|split]].
  - apply (proj1 ids_count_from_one
             [("Project X", "Description X", 1); ("Project Y", "Description Y", 2);
              ("Project Z", "Description Z", 1)] fresh_env).
  - apply (proj1 (proj2 ids_count_from_one)
             [(2%nat, 7, 85, "Good work"); (0%nat, 8, 40, "Weak");
              (1%nat, 7, 99, "Excellent")] three_under_review).
    + apply (bool_decide_unpack _). reflexivity.
    + repeat constructor.
  - apply (proj1 (proj2 (proj2 ids_count_from_one))
             [(0%nat, 5, "APPROVED", "first"); (0%nat, 6, "REJECTED", "second");
              (2%nat, 5, "approved", "third")] three_under_review).
    repeat constructor; eexists; reflexivity.
  - apply (proj1 (proj2 (proj2 (proj2 ids_count_from_one))) 3%nat).
Defined.

(** ** State names *)

Lemma type_name_symbol s : type_name s = symbol s +:+ "State".
Proof. by destruct s. Qed.

Lemma print_statuses_run apps : forall (w : Env) objs,
  Forall2 (fun a obj => heap w !! a = Some obj) apps objs ->
  SystemFacade.print_statuses apps w
  = (Return tt, mkEnv (heap w) (stdout w ++ map status_line objs)).
Proof.
  induction apps as [|a apps IH]; intros w objs Hall.
  - apply Forall2_nil_inv_l in Hall as ->. simpl.
    by rewrite app_nil_r, env_eta.
  - apply Forall2_cons_inv_l in Hall as (obj & objs' & Ha & Hrest & ->).
    cbn [SystemFacade.print_statuses].
    erewrite bind_return by (by apply getattr_run).
    erewrite bind_return by (by apply get_state_run).
    erewrite bind_return by reflexivity.
    rewrite (IH _ objs') by exact Hrest.
    cbn [heap stdout map]. by rewrite <- app_assoc.
Qed.

(** C10, as the code has it: [get_state] returns the name of the class of the
    state object, which is the specification's symbol followed by "State":
    one of SubmittedState, UnderReviewState, EvaluatedState, WithdrawnState,
    ApprovedState, RejectedState; [view_status] prints that name for each
    application; an application just created and submitted reports
    "SubmittedState" and after the review "UnderReviewState". *)
Theorem get_state_is_class_name :
  (forall (w : Env) a obj,
     heap w !! a = Some obj ->
     Application_get_state a w
     = (Return (symbol (Application.state obj) +:+ "State"), w)
     /\ symbol (Application.state obj) +:+ "State"
        ∈ ["SubmittedState"; "UnderReviewState"; "EvaluatedState";
           "WithdrawnState"; "ApprovedState"; "RejectedState"])
  /\ (forall (w : Env) apps objs,
       Forall2 (fun a obj => heap w !! a = Some obj) apps objs ->
       SystemFacade.print_statuses apps w
       = (Return tt,
          mkEnv (heap w)
                (stdout w
                 ++ map (fun obj =>
                           "[Status] Application "
                           +:+ pretty (Application.application_id obj) +:+ ": "
                           +:+ symbol (Application.state obj) +:+ "State")
                        objs)))
  /\ (exists app fw,
       SystemFacade.submit_application 1 "Project X" "Description X" fresh_world
       = (Return app, fw)
       /\ Application_get_state app (snd fw) = (Return "SubmittedState", snd fw)
       /\ exists w',
            Application_start_review app (snd fw) = (Return tt, w')
            /\ Application_get_state app w' = (Return "UnderReviewState", w')).
Proof.
  split; [|split].
  - intros w a obj Ha. rewrite <- type_name_symbol. split.
    + by apply get_state_run.
    + destruct (Application.state obj); simpl; set_solver.
  - intros w apps objs Hall. rewrite (print_statuses_run apps w objs Hall).
    do 3 f_equal. apply map_ext. intros obj. unfold status_line.
    by rewrite type_name_symbol.
  - eexists _, _. split; [reflexivity|]. split; [reflexivity|].
    eexists. split; reflexivity.
Qed.

Lemma get_state_is_class_name_witness :
  Application_get_state 0%nat (env_with EvaluatedState)
  = (Return (symbol EvaluatedState +:+ "State"), env_with EvaluatedState)
  /\ symbol EvaluatedState +:+ "State"
     ∈ ["SubmittedState"; "UnderReviewState"; "EvaluatedState";
        "WithdrawnState"; "ApprovedState"; "RejectedState"].
Proof.
  apply (proj1 get_state_is_class_name (env_with EvaluatedState) 0%nat
               (Application.mk 1 "Project X" "Description X" 1 EvaluatedState)).
  reflexivity.
Defined.

(** C10, as the specification words it, fails: the application just created
    and submitted reports "SubmittedState", which is not "Submitted" and not
    any of the six symbols. *)
Lemma get_state_is_not_the_symbol :
  exists app fw,
    SystemFacade.submit_application 1 "Project X" "Description X" fresh_world
    = (Return app, fw)
    /\ Application_get_state app (snd fw) = (Return "SubmittedState", snd fw)
    /\ fst (Application_get_state app (snd fw)) <> Return "Submitted"
    /\ ~ (exists s, fst (Application_get_state app (snd fw)) = Return (symbol s)).
Proof.
  eexists _, _. split; [reflexivity|]. split; [reflexivity|].
  split; [discriminate|]. intros [s Hs]. destruct s; discriminate.
Qed.

(** ** The script's own scenario *)

(** The [__main__] block never calls [start_review]: the evaluation is
    refused, the decision is recorded, and the application stays Submitted. *)
Example main_output :
  exists fw,
    main fresh_world = (Return tt, fw)
    /\ stdout (snd fw)
       = ["[ApplicationService] Created application 1";
          "[SubmittedState] Already submitted";
          "[Status] Application 1: SubmittedState";
          "[DecisionService] Assigned experts [2] to application 1";
          "[EvaluationService] Cannot evaluate, application not under review";
          "[Status] Application 1: SubmittedState";
          "[SubmittedState] Cannot decide, not evaluated";
          "[DecisionService] Saved decision 1 with status APPROVED";
          "[Status] Application 1: SubmittedState"]
    /\ state_at (snd fw) 0%nat = Some SubmittedState.
Proof. eexists. split; [vm_compute; reflexivity|]. split; reflexivity. Qed.

(** * Further properties of the code *)

(** ** Application objects *)

(** X1: a sequence of operations on one application returns normally and
    changes nothing in the heap but that application's state: its id, title,
    description and owner stay, every other application is untouched and no
    object is created. *)
Theorem operations_touch_only_the_state (w : Env) a obj ops :
  heap w !! a = Some obj ->
  exists w' s',
    perform_all ops a w = (Return tt, w')
    /\ heap w' !! a = Some (Application.with_state s' obj)
    /\ (forall b, b <> a -> heap w' !! b = heap w !! b)
    /\ length (heap w') = length (heap w).
Proof.
  intros Ha.
  destruct (perform_all_run ops w a obj Ha) as (lines & Hrun).
  eexists _, _. split; [exact Hrun|]. cbn [heap]. split; [|split].
  - apply list_lookup_insert_eq. by eapply lookup_lt_Some.
  - intros b Hb. by apply list_lookup_insert_ne.
  - apply length_insert.
Qed.

Lemma operations_touch_only_the_state_witness :
  exists w' s',
    perform_all [Review; Withdraw] 0%nat (env_with SubmittedState) = (Return tt, w')
    /\ heap w' !! 0%nat
       = Some (Application.with_state s'
                 (Application.mk 1 "Project X" "Description X" 1 SubmittedState))
    /\ (forall b, b <> 0%nat ->
        heap w' !! b = heap (env_with SubmittedState) !! b)
    /\ length (heap w') = length (heap (env_with SubmittedState)).
Proof.
  apply (operations_touch_only_the_state (env_with SubmittedState) 0%nat
           (Application.mk 1 "Project X" "Description X" 1 SubmittedState)
           [Review; Withdraw]).
  reflexivity.
Defined.

Lemma one_line_decision_text (outcome : string) :
  one_line ("[EvaluatedState] Decision applied: " +:+ outcome) = one_line outcome.
Proof. reflexivity. Qed.

(** X2: an entry of [stdout] is the text of one [print] call.  On an Approved
    or Rejected application every operation is silent and changes nothing at
    all.  In the four other states every operation makes exactly one [print]
    call, and its text starts with the name of the state class in brackets.
    That text is a fixed message without a line feed, so one line of output,
    except for a decision on an Evaluated application: there it is
    "[EvaluatedState] Decision applied: " followed by the decision string as
    given, so it is one line exactly when the decision string has no line
    feed. *)
Theorem operation_diagnostic (w : Env) a obj op :
  heap w !! a = Some obj ->
  (Application.state obj = ApprovedState \/ Application.state obj = RejectedState ->
   perform op a w = (Return tt, w))
  /\ (Application.state obj <> ApprovedState ->
      Application.state obj <> RejectedState ->
      exists text w',
        perform op a w = (Return tt, w')
        /\ stdout w' = stdout w ++ [text]
        /\ String.prefix ("[" +:+ type_name (Application.state obj) +:+ "] ") text
           = true
        /\ (forall outcome,
              Application.state obj = EvaluatedState ->
              op = Decide outcome ->
              text = "[EvaluatedState] Decision applied: " +:+ outcome
              /\ one_line text = one_line outcome)
        /\ (~ (Application.state obj = EvaluatedState
               /\ exists outcome, op = Decide outcome) ->
            one_line text = true)).
Proof.
  intros Ha. split.
  - intros Hs.
    destruct op; cbn [perform];
      unfold Application_submit, Application_start_review, Application_evaluate,
        Application_withdraw, Application_make_decision, bind;
      rewrite (getattr_run _ _ _ _ _ Ha);
      destruct Hs as [-> | ->]; reflexivity.
  - intros Hna Hnr.
    destruct obj as [i t d o s]; cbn [Application.state] in *.
    destruct s; try done; destruct op; cbn [perform];
      unfold Application_submit, Application_start_review, Application_evaluate,
        Application_withdraw, Application_make_decision, bind;
      rewrite (getattr_run _ _ _ _ _ Ha); cbn [Application.state];
      cbn [ApplicationState_submit ApplicationState_review
           ApplicationState_evaluate ApplicationState_withdraw
           ApplicationState_decide];
      unfold SubmittedState.submit, SubmittedState.review, SubmittedState.evaluate,
        SubmittedState.withdraw, SubmittedState.decide,
        UnderReviewState.submit, UnderReviewState.review,
        UnderReviewState.evaluate, UnderReviewState.withdraw,
        UnderReviewState.decide,
        EvaluatedState.submit, EvaluatedState.review, EvaluatedState.evaluate,
        EvaluatedState.withdraw, EvaluatedState.decide,
        WithdrawnState.submit, WithdrawnState.review, WithdrawnState.evaluate,
        WithdrawnState.withdraw, WithdrawnState.decide, bind, print, modify;
      try (destruct (String.eqb outcome "APPROVED"));
      try (erewrite set_state_run by (cbn [heap]; exact Ha));
      eexists _, _; (split; [reflexivity|]); (split; [reflexivity|]);
      (split; [reflexivity|]);
      (split;
       [ intros outcome' Hs Hop;
         first [ discriminate
               | injection Hop as <-; split; reflexivity ]
       | intros Hnot;
         first [ reflexivity
               | exfalso; apply Hnot; split; [reflexivity | by eexists] ] ]).
Qed.

Lemma operation_diagnostic_witness :
  exists text w',
    perform (Decide (String "a" (String "010" (String "b" EmptyString)))) 0%nat
            (env_with EvaluatedState) = (Return tt, w')
    /\ stdout w' = stdout (env_with EvaluatedState) ++ [text]
    /\ String.prefix ("[" +:+ type_name EvaluatedState +:+ "] ") text = true
    /\ (forall outcome,
          EvaluatedState = EvaluatedState ->
          Decide (String "a" (String "010" (String "b" EmptyString)))
          = Decide outcome ->
          text = "[EvaluatedState] Decision applied: " +:+ outcome
          /\ one_line text = one_line outcome)
    /\ (~ (EvaluatedState = EvaluatedState
           /\ exists outcome,
                Decide (String "a" (String "010" (String "b" EmptyString)))
                = Decide outcome) ->
        one_line text = true).
Proof.
  apply (proj2 (operation_diagnostic (env_with EvaluatedState) 0%nat
                  (Application.mk 1 "Project X" "Description X" 1 EvaluatedState)
                  (Decide (String "a" (String "010" (String "b" EmptyString))))
                  eq_refl)); discriminate.
Defined.

(** X3: [set_state] followed by [get_state] reports the class name of the
    state that was set, without printing; the six class names are pairwise
    different, so the reported name identifies the state. *)
Theorem set_state_then_get_state (w : Env) a obj s :
  heap w !! a = Some obj ->
  exists w',
    Application_set_state a s w = (Return tt, w')
    /\ Application_get_state a w' = (Return (type_name s), w')
    /\ stdout w' = stdout w
    /\ (forall s', type_name s' = type_name s -> s' = s).
Proof.
  intros Ha. eexists. split; [by apply set_state_run|].
  split; [|split; [done|]].
  - rewrite (get_state_run _ a (Application.with_state s obj)); [done|].
    cbn [heap]. apply list_lookup_insert_eq. by eapply lookup_lt_Some.
  - intros s'. apply type_name_inj.
Qed.

Lemma set_state_then_get_state_witness :
  exists w',
    Application_set_state 0%nat ApprovedState (env_with SubmittedState)
    = (Return tt, w')
    /\ Application_get_state 0%nat w' = (Return (type_name ApprovedState), w')
    /\ stdout w' = stdout (env_with SubmittedState)
    /\ (forall s', type_name s' = type_name ApprovedState -> s' = ApprovedState).
Proof.
  apply (set_state_then_get_state (env_with SubmittedState) 0%nat
           (Application.mk 1 "Project X" "Description X" 1 SubmittedState)
           ApprovedState).
  reflexivity.
Defined.

(** ** The registry *)

Lemma dict_get_set_eq {V} (d : dict V) k v : dict_get (dict_set d k v) k = Some v.
Proof.
  induction d as [|[k' v'] d IH]; simpl.
  - by rewrite Z.eqb_refl.
  - destruct (k' =? k) eqn:Hk; simpl; by rewrite Hk.
Qed.

Lemma dict_get_set_ne {V} (d : dict V) k k' v :
  k <> k' -> dict_get (dict_set d k v) k' = dict_get d k'.
Proof.
  intros Hne. induction d as [|[k0 v0] d IH]; simpl.
  - by rewrite (proj2 (Z.eqb_neq k k')).
  - destruct (k0 =? k) eqn:Hk; simpl.
    + apply Z.eqb_eq in Hk as ->. by rewrite (proj2 (Z.eqb_neq k k')).
    + by rewrite IH.
Qed.

(** X4: [create_application] returns a new object, Submitted and carrying the
    counter value as id and the given title, description and owner; the
    registry then finds it under that id, its other entries are as before, no
    existing object is touched, and the counter has advanced by one. *)
Theorem create_application_registers (self : ApplicationService.t) (e : Env)
    (title description : string) (applicant_id : Z) :
  exists app self' e',
    ApplicationService.create_application title description applicant_id (self, e)
    = (Return app, (self', e'))
    /\ dict_get (ApplicationService.applications self')
                (ApplicationService.next_id self) = Some app
    /\ heap e' !! app
       = Some (Application.mk (ApplicationService.next_id self) title description
                              applicant_id SubmittedState)
    /\ heap e !! app = None
    /\ (forall k, k <> ApplicationService.next_id self ->
          dict_get (ApplicationService.applications self') k
          = dict_get (ApplicationService.applications self) k)
    /\ (forall b obj, heap e !! b = Some obj -> heap e' !! b = Some obj)
    /\ ApplicationService.next_id self' = ApplicationService.next_id self + 1.
Proof.
  eexists _, _, _. split; [apply create_application_run|].
  cbn [ApplicationService.applications ApplicationService.next_id heap].
  split; [apply dict_get_set_eq|].
  split; [by apply list_lookup_middle|].
  split; [by apply lookup_ge_None_2|].
  split; [intros k Hk; by apply dict_get_set_ne|].
  split; [|done].
  intros b obj Hb. by apply lookup_app_l_Some.
Qed.

Lemma owned_by_run (applicant_id : Z) apps : forall e : Env,
  Forall (fun a => is_Some (heap e !! a)) apps ->
  ApplicationService.owned_by applicant_id apps e
  = (Return (filter (fun a => owner_at e a = Some applicant_id) apps), e).
Proof.
  induction apps as [|a apps IH]; intros e Hall; [done|].
  apply Forall_cons in Hall as [[obj Ha] Hall].
  cbn [ApplicationService.owned_by].
  erewrite bind_return by (by apply getattr_run).
  erewrite bind_return by (by apply IH).
  assert (Howner : owner_at e a = Some (Application.applicant_id obj))
    by (unfold owner_at; by rewrite Ha).
  unfold ret. rewrite filter_cons.
  destruct (Z.eqb_spec (Application.applicant_id obj) applicant_id) as [Heq|Hne].
  - rewrite decide_True; [done|]. by rewrite Howner, Heq.
  - rewrite decide_False; [done|]. rewrite Howner. congruence.
Qed.

Lemma valid_objects (e : Env) apps :
  Forall (fun a => is_Some (heap e !! a)) apps ->
  exists objs, Forall2 (fun a obj => heap e !! a = Some obj) apps objs.
Proof.
  induction 1 as [|a apps [obj Ha] _ [objs IH]].
  - exists []. constructor.
  - exists (obj :: objs). by constructor.
Qed.

Lemma get_applications_by_applicant_filters_aux (self : ApplicationService.t)
    (e : Env) (applicant_id : Z) :
  Forall (fun a => is_Some (heap e !! a))
         (dict_values (ApplicationService.applications self)) ->
  ApplicationService.get_applications_by_applicant applicant_id (self, e)
  = (Return (filter (fun a => owner_at e a = Some applicant_id)
                    (dict_values (ApplicationService.applications self))),
     (self, e)).
Proof.
  intros Hall.
  unfold ApplicationService.get_applications_by_applicant, bind, self_get, gets,
    lift_env; cbn [fst snd].
  by rewrite (owned_by_run applicant_id _ e Hall).
Qed.

(** X5: when every registered reference is an object, the listing by
    applicant returns the registered applications whose owner is the given
    id, all of them and only them, in registration order, and changes
    nothing. *)
Theorem get_applications_by_applicant_filters (self : ApplicationService.t)
    (e : Env) (applicant_id : Z) :
  let registered := dict_values (ApplicationService.applications self) in
  Forall (fun a => is_Some (heap e !! a)) registered ->
  exists owned,
    ApplicationService.get_applications_by_applicant applicant_id (self, e)
    = (Return owned, (self, e))
    /\ owned = filter (fun a => owner_at e a = Some applicant_id) registered
    /\ sublist owned registered
    /\ (forall a, a ∈ owned <->
                  owner_at e a = Some applicant_id /\ a ∈ registered).
Proof.
  intros registered Hall. eexists. split; [|split; [reflexivity|split]].
  - by apply get_applications_by_applicant_filters_aux.
  - apply sublist_filter.
  - intros a. by rewrite list_elem_of_filter.
Qed.

Lemma get_applications_by_applicant_filters_witness :
  exists owned,
    ApplicationService.get_applications_by_applicant 1
      (ApplicationService.mk [(1, 0%nat)] 2, env_with SubmittedState)
    = (Return owned,
       (ApplicationService.mk [(1, 0%nat)] 2, env_with SubmittedState))
    /\ owned = filter (fun a => owner_at (env_with SubmittedState) a = Some 1)
                      [0%nat]
    /\ sublist owned [0%nat]
    /\ (forall a, a ∈ owned <->
                  owner_at (env_with SubmittedState) a = Some 1 /\ a ∈ [0%nat]).
Proof.
  apply (get_applications_by_applicant_filters
           (ApplicationService.mk [(1, 0%nat)] 2) (env_with SubmittedState) 1).
  repeat constructor. by exists (Application.mk 1 "Project X" "Description X" 1
                                                SubmittedState).
Defined.

(** X6: when every registered reference is an object, [view_status] prints
    one status line for each registered application of the applicant, in
    registration order, and changes nothing else; for an applicant who owns
    no registered application it prints nothing. *)
Theorem view_status_prints_owned (self : SystemFacade.t) (e : Env)
    (applicant_id : Z) :
  let apps :=
    dict_values (ApplicationService.applications
                   (SystemFacade.application_service self)) in
  let owned := filter (fun a => owner_at e a = Some applicant_id) apps in
  Forall (fun a => is_Some (heap e !! a)) apps ->
  (exists objs,
     Forall2 (fun a obj => heap e !! a = Some obj) owned objs
     /\ SystemFacade.view_status applicant_id (self, e)
        = (Return tt,
           (self, mkEnv (heap e) (stdout e ++ map status_line objs))))
  /\ (owned = [] -> SystemFacade.view_status applicant_id (self, e)
                   = (Return tt, (self, e))).
Proof.
  intros apps owned Hall.
  assert (Hrun : forall objs,
             Forall2 (fun a obj => heap e !! a = Some obj) owned objs ->
             SystemFacade.view_status applicant_id (self, e)
             = (Return tt,
                (self, mkEnv (heap e) (stdout e ++ map status_line objs)))).
  { intros objs Hobjs.
    unfold SystemFacade.view_status, SystemFacade.on_application_service, zoom,
      bind, lift_env; cbn [fst snd].
    rewrite (get_applications_by_applicant_filters_aux _ e applicant_id Hall).
    cbn [fst snd]. fold apps. fold owned.
    rewrite (print_statuses_run owned e objs Hobjs). by destruct self. }
  split.
  - destruct (valid_objects e owned) as [objs Hobjs].
    { subst owned. rewrite Forall_forall in Hall |- *.
      intros a Ha. apply Hall. by apply list_elem_of_filter in Ha as [_ Ha]. }
    exists objs. split; [exact Hobjs | by apply Hrun].
  - intros Hnone. rewrite (Hrun []); [|rewrite Hnone; constructor].
    simpl. by rewrite app_nil_r, env_eta.
Qed.

Lemma view_status_prints_owned_witness :
  exists objs,
    Forall2 (fun a obj => heap (env_with UnderReviewState) !! a = Some obj)
            (filter (fun a => owner_at (env_with UnderReviewState) a = Some 1)
                    (dict_values [(1, 0%nat)]))
            objs
    /\ SystemFacade.view_status 1
         (SystemFacade.mk (ApplicationService.mk [(1, 0%nat)] 2)
                          EvaluationService.init DecisionService.init,
          env_with UnderReviewState)
       = (Return tt,
          (SystemFacade.mk (ApplicationService.mk [(1, 0%nat)] 2)
                           EvaluationService.init DecisionService.init,
           mkEnv (heap (env_with UnderReviewState))
                 (stdout (env_with UnderReviewState) ++ map status_line objs))).
Proof.
  apply (proj1 (view_status_prints_owned
                  (SystemFacade.mk (ApplicationService.mk [(1, 0%nat)] 2)
                                   EvaluationService.init DecisionService.init)
                  (env_with UnderReviewState) 1
                  ltac:(repeat constructor;
                        by exists (Application.mk 1 "Project X" "Description X" 1
                                                  UnderReviewState)))).
Defined.

(** ** The facade on missing and foreign applications *)

Lemma withdraw_application_run (self : SystemFacade.t) (w : Env)
    (applicant_id application_id : Z) a obj :
  dict_get (ApplicationService.applications (SystemFacade.application_service self))
           application_id = Some a ->
  heap w !! a = Some obj ->
  SystemFacade.withdraw_application applicant_id application_id (self, w)
  = if Application.applicant_id obj =? applicant_id
    then lift_env (Application_withdraw a) (self, w)
    else (Return tt,
          (self,
           mkEnv (heap w)
                 (stdout w ++ ["[Facade] Application not found or access denied"]))).
Proof.
  intros Hget Ha.
  unfold SystemFacade.withdraw_application, SystemFacade.lookup_application,
    bind, self_get, gets; cbn [fst snd].
  rewrite Hget. unfold lift_env at 1; cbn [fst snd].
  rewrite (getattr_run _ _ _ _ _ Ha). unfold ret.
  by destruct (Application.applicant_id obj =? applicant_id).
Qed.

Lemma withdraw_application_unknown (self : SystemFacade.t) (w : Env)
    (applicant_id application_id : Z) :
  dict_get (ApplicationService.applications (SystemFacade.application_service self))
           application_id = None ->
  SystemFacade.withdraw_application applicant_id application_id (self, w)
  = (Return tt,
     (self,
      mkEnv (heap w)
            (stdout w ++ ["[Facade] Application not found or access denied"]))).
Proof.
  intros Hget.
  unfold SystemFacade.withdraw_application, SystemFacade.lookup_application,
    bind, self_get, gets; cbn [fst snd].
  by rewrite Hget.
Qed.

(** X7: [withdraw_application] on an id the registry does not hold returns
    normally, prints the refusal and changes nothing else; the outcome is the
    same as for a registered application requested by someone who is not its
    owner, so the caller cannot tell the two cases apart. *)
Theorem withdraw_application_missing (self : SystemFacade.t) (w : Env)
    (applicant_id application_id : Z) :
  dict_get (ApplicationService.applications (SystemFacade.application_service self))
           application_id = None ->
  SystemFacade.withdraw_application applicant_id application_id (self, w)
  = (Return tt,
     (self,
      mkEnv (heap w)
            (stdout w ++ ["[Facade] Application not found or access denied"])))
  /\ (forall registered_id a obj,
        dict_get (ApplicationService.applications
                    (SystemFacade.application_service self)) registered_id
        = Some a ->
        heap w !! a = Some obj ->
        Application.applicant_id obj <> applicant_id ->
        SystemFacade.withdraw_application applicant_id registered_id (self, w)
        = SystemFacade.withdraw_application applicant_id application_id (self, w)).
Proof.
  intros Hget. split; [by apply withdraw_application_unknown|].
  intros k a obj Hk Ha Hne.
  rewrite (withdraw_application_run self w applicant_id k a obj Hk Ha).
  rewrite (proj2 (Z.eqb_neq _ _) Hne).
  by rewrite withdraw_application_unknown.
Qed.

Lemma withdraw_application_missing_witness :
  SystemFacade.withdraw_application 1 5 fresh_world
  = (Return tt,
     (SystemFacade.init,
      mkEnv (heap fresh_env)
            (stdout fresh_env ++ ["[Facade] Application not found or access denied"])))
  /\ (forall registered_id a obj,
        dict_get (ApplicationService.applications
                    (SystemFacade.application_service SystemFacade.init))
                 registered_id = Some a ->
        heap fresh_env !! a = Some obj ->
        Application.applicant_id obj <> 1 ->
        SystemFacade.withdraw_application 1 registered_id fresh_world
        = SystemFacade.withdraw_application 1 5 fresh_world).
Proof.
  apply (withdraw_application_missing SystemFacade.init fresh_env 1 5).
  reflexivity.
Defined.

(** X8: [assign_experts] on a registered application returns normally and
    only prints one line naming the experts and the application's id: no
    state changes and no record is stored, whoever the fund holder is; on an
    id the registry does not hold it ends with an uncaught [AttributeError]
    and has changed nothing. *)
Theorem assign_experts_only_announces (self : SystemFacade.t) (w : Env)
    (fund_holder_id application_id : Z) (expert_ids : list Z) :
  (forall a obj,
     dict_get (ApplicationService.applications
                 (SystemFacade.application_service self)) application_id
     = Some a ->
     heap w !! a = Some obj ->
     SystemFacade.assign_experts fund_holder_id application_id expert_ids (self, w)
     = (Return tt,
        (self,
         mkEnv (heap w)
               (stdout w
                ++ ["[DecisionService] Assigned experts " +:+ str_list expert_ids
                    +:+ " to application "
                    +:+ pretty (Application.application_id obj)]))))
  /\ (dict_get (ApplicationService.applications
                  (SystemFacade.application_service self)) application_id
      = None ->
      SystemFacade.assign_experts fund_holder_id application_id expert_ids (self, w)
      = (Raise (AttributeError
                  "'NoneType' object has no attribute 'application_id'"),
         (self, w))).
Proof.
  split.
  - intros a obj Hget Ha.
    unfold SystemFacade.assign_experts, SystemFacade.lookup_application,
      SystemFacade.on_decision_service, DecisionService.assign_experts, zoom,
      bind, self_get, gets, lift_env; cbn [fst snd].
    rewrite Hget. cbn [fst snd]. rewrite (getattr_run _ _ _ _ _ Ha).
    by destruct self as [? ? []].
  - intros Hget.
    unfold SystemFacade.assign_experts, SystemFacade.lookup_application,
      SystemFacade.on_decision_service, DecisionService.assign_experts, zoom,
      bind, self_get, gets, lift_env; cbn [fst snd].
    rewrite Hget. by destruct self as [? ? []].
Qed.

Lemma assign_experts_only_announces_witness :
  SystemFacade.assign_experts 3 1 [2; 4]
    (SystemFacade.mk (ApplicationService.mk [(1, 0%nat)] 2)
                     EvaluationService.init DecisionService.init,
     env_with SubmittedState)
  = (Return tt,
     (SystemFacade.mk (ApplicationService.mk [(1, 0%nat)] 2)
                      EvaluationService.init DecisionService.init,
      mkEnv (heap (env_with SubmittedState))
            (stdout (env_with SubmittedState)
             ++ ["[DecisionService] Assigned experts " +:+ str_list [2; 4]
                 +:+ " to application " +:+ pretty 1]))).
Proof.
  apply (proj1 (assign_experts_only_announces
                  (SystemFacade.mk (ApplicationService.mk [(1, 0%nat)] 2)
                                   EvaluationService.init DecisionService.init)
                  (env_with SubmittedState) 3 1 [2; 4])
               0%nat
               (Application.mk 1 "Project X" "Description X" 1 SubmittedState));
    reflexivity.
Defined.

(** ** Evaluations *)

Lemma is_valid_spec (ev : Evaluation.t) :
  Evaluation.is_valid ev = true
  <-> 0 <= Evaluation.score ev <= 100 /\ Evaluation.comments ev <> "".
Proof.
  unfold Evaluation.is_valid.
  rewrite !andb_true_iff, negb_true_iff, !Z.leb_le, String.eqb_neq. tauto.
Qed.

(** X9: [save_evaluation] never consults [is_valid]: on an application under
    review it stores and returns the record for every score and every
    comment, and that record is valid exactly when the score lies in 0..100
    and the comment is not empty; so records that are not valid are stored
    too. *)
Theorem save_evaluation_ignores_validity (self : EvaluationService.t) (w : Env)
    a obj (expert_id score : Z) (comments : string) :
  heap w !! a = Some obj ->
  Application.state obj = UnderReviewState ->
  exists ev w',
    EvaluationService.save_evaluation (Some a) expert_id score comments (self, w)
    = (Return (Some ev),
       (EvaluationService.mk
          (<[EvaluationService.next_id self := ev]>
             (EvaluationService.evaluations self))
          (EvaluationService.next_id self + 1),
        w'))
    /\ Evaluation.score ev = score
    /\ Evaluation.comments ev = comments
    /\ (Evaluation.is_valid ev = true <-> 0 <= score <= 100 /\ comments <> "")
    /\ (score < 0 \/ 100 < score \/ comments = "" -> Evaluation.is_valid ev = false).
Proof.
  intros Ha Hs. eexists _, _.
  split; [by apply (save_evaluation_accepted self w a obj)|].
  split; [done|]. split; [done|]. split.
  - apply is_valid_spec.
  - intros Hbad. apply not_true_is_false. rewrite is_valid_spec.
    cbn [Evaluation.score Evaluation.comments]. intros [Hr Hc].
    destruct Hbad as [?|[?|?]]; [lia | lia | done].
Qed.

Lemma save_evaluation_ignores_validity_witness :
  exists ev w',
    EvaluationService.save_evaluation (Some 0%nat) 2 (-7) ""
      (EvaluationService.init, env_with UnderReviewState)
    = (Return (Some ev),
       (EvaluationService.mk (<[1 := ev]> ∅) (1 + 1), w'))
    /\ Evaluation.score ev = -7
    /\ Evaluation.comments ev = ""
    /\ (Evaluation.is_valid ev = true <-> 0 <= -7 <= 100 /\ "" <> "")
    /\ (-7 < 0 \/ 100 < -7 \/ "" = "" -> Evaluation.is_valid ev = false).
Proof.
  apply (save_evaluation_ignores_validity EvaluationService.init
           (env_with UnderReviewState) 0%nat
           (Application.mk 1 "Project X" "Description X" 1 UnderReviewState)
           2 (-7) ""); reflexivity.
Defined.

Lemma under_review_not_after_evaluated ops :
  targets ops EvaluatedState <> UnderReviewState.
Proof.
  intros Heq. pose proof (targets_forward ops EvaluatedState) as Hfwd.
  rewrite Heq in Hfwd. apply rtc_edge_rank in Hfwd. simpl in Hfwd. lia.
Qed.

(** X10: an application is evaluated at most once: after a [save_evaluation]
    that stored a record, and after any sequence of operations on the
    application, a further [save_evaluation] on it returns [None], stores
    nothing, keeps the counter and leaves the application as it is. *)
Theorem evaluation_only_once (self : EvaluationService.t) (w : Env) a obj
    (expert1 score1 : Z) (comments1 : string) (ops : list Operation)
    (expert2 score2 : Z) (comments2 : string) :
  heap w !! a = Some obj ->
  Application.state obj = UnderReviewState ->
  exists ev self1 w1 w2 w3,
    EvaluationService.save_evaluation (Some a) expert1 score1 comments1 (self, w)
    = (Return (Some ev), (self1, w1))
    /\ perform_all ops a w1 = (Return tt, w2)
    /\ EvaluationService.save_evaluation (Some a) expert2 score2 comments2
         (self1, w2)
       = (Return None, (self1, w3))
    /\ heap w3 = heap w2.
Proof.
  intros Ha Hs.
  assert (Hlt : (a < length (heap w))%nat) by by eapply lookup_lt_Some.
  set (obj1 := Application.with_state EvaluatedState obj).
  set (w1 := mkEnv (<[a := obj1]> (heap w))
                   ((stdout w ++ ["[UnderReviewState] Evaluating application"])
                    ++ ["[EvaluationService] Saved evaluation "
                        +:+ pretty (EvaluationService.next_id self)])).
  assert (Ha1 : heap w1 !! a = Some obj1)
    by (cbn [w1 heap]; by apply list_lookup_insert_eq).
  destruct (perform_all_run ops w1 a obj1 Ha1) as (lines & Hops).
  set (obj2 := Application.with_state (targets ops (Application.state obj1)) obj1)
    in Hops.
  set (w2 := mkEnv (<[a := obj2]> (heap w1)) (stdout w1 ++ lines)) in Hops.
  eexists _, _, w1, w2, _.
  split; [by apply (save_evaluation_accepted self w a obj)|].
  split; [exact Hops|].
  split.
  - apply (save_evaluation_refused _ w2 a obj2).
    + cbn [w2 heap]. apply list_lookup_insert_eq. cbn [w1 heap].
      by rewrite length_insert.
    + cbn [obj2 obj1 Application.with_state Application.state].
      apply under_review_not_after_evaluated.
  - reflexivity.
Qed.

Lemma evaluation_only_once_witness :
  exists ev self1 w1 w2 w3,
    EvaluationService.save_evaluation (Some 0%nat) 2 85 "Good work"
      (EvaluationService.init, env_with UnderReviewState)
    = (Return (Some ev), (self1, w1))
    /\ perform_all [Withdraw; Review] 0%nat w1 = (Return tt, w2)
    /\ EvaluationService.save_evaluation (Some 0%nat) 4 90 "Again" (self1, w2)
       = (Return None, (self1, w3))
    /\ heap w3 = heap w2.
Proof.
  apply (evaluation_only_once EvaluationService.init (env_with UnderReviewState)
           0%nat
           (Application.mk 1 "Project X" "Description X" 1 UnderReviewState)
           2 85 "Good work" [Withdraw; Review] 4 90 "Again"); reflexivity.
Defined.

(** ** Through the facade *)

Lemma lift_env_run {S A} (m : M Env A) (self : S) (e : Env) r e' :
  m e = (r, e') -> lift_env m (self, e) = (r, (self, e')).
Proof. intros H. unfold lift_env; cbn [fst snd]. by rewrite H. Qed.

Lemma submit_application_run (self : SystemFacade.t) (e : Env)
    (applicant_id : Z) (title description : string) :
  let registry := SystemFacade.application_service self in
  SystemFacade.submit_application applicant_id title description (self, e)
  = (Return (length (heap e)),
     (SystemFacade.mk
        (ApplicationService.mk
           (dict_set (ApplicationService.applications registry)
                     (ApplicationService.next_id registry) (length (heap e)))
           (ApplicationService.next_id registry + 1))
        (SystemFacade.evaluation_service self)
        (SystemFacade.decision_service self),
      mkEnv (heap e ++ [Application.mk (ApplicationService.next_id registry)
                                       title description applicant_id
                                       SubmittedState])
            ((stdout e ++ ["[ApplicationService] Created application "
                           +:+ pretty (ApplicationService.next_id registry)])
             ++ ["[SubmittedState] Already submitted"]))).
Proof.
  intros registry.
  unfold SystemFacade.submit_application, SystemFacade.on_application_service,
    zoom, bind; cbn [fst snd].
  rewrite create_application_run.
  erewrite lift_env_run; cycle 1.
  { unfold Application_submit, bind.
    erewrite getattr_run by (cbn [heap]; by apply list_lookup_middle).
    reflexivity. }
  reflexivity.
Qed.

Lemma evaluate_application_run (self : SystemFacade.t) (w : Env)
    (expert_id application_id score : Z) (comments : string) a r es' w' :
  dict_get (ApplicationService.applications (SystemFacade.application_service self))
           application_id = Some a ->
  EvaluationService.save_evaluation (Some a) expert_id score comments
    (SystemFacade.evaluation_service self, w) = (Return r, (es', w')) ->
  SystemFacade.evaluate_application expert_id application_id score comments (self, w)
  = (Return tt,
     (SystemFacade.mk (SystemFacade.application_service self) es'
                      (SystemFacade.decision_service self), w')).
Proof.
  intros Hget Hsave.
  unfold SystemFacade.evaluate_application, SystemFacade.lookup_application,
    SystemFacade.on_evaluation_service, zoom, bind, self_get, gets;
    cbn [fst snd].
  rewrite Hget. cbn [fst snd]. by rewrite Hsave.
Qed.

Lemma make_decision_run (self : SystemFacade.t) (w : Env)
    (fund_holder_id application_id : Z) (status notes : string) a ds' w' :
  dict_get (ApplicationService.applications (SystemFacade.application_service self))
           application_id = Some a ->
  DecisionService.save_decision (Some a) fund_holder_id status notes
    (SystemFacade.decision_service self, w) = (Return tt, (ds', w')) ->
  SystemFacade.make_decision fund_holder_id application_id status notes (self, w)
  = (Return tt,
     (SystemFacade.mk (SystemFacade.application_service self)
                      (SystemFacade.evaluation_service self) ds', w')).
Proof.
  intros Hget Hsave.
  unfold SystemFacade.make_decision, SystemFacade.lookup_application,
    SystemFacade.on_decision_service, zoom, bind, self_get, gets;
    cbn [fst snd].
  rewrite Hget. cbn [fst snd]. by rewrite Hsave.
Qed.

Lemma forwarded_target (status : string) :
  target EvaluatedState
         (Decide (if bool_decide (status = "APPROVED")
                  then "APPROVED" else "REJECTED"))
  = if bool_decide (status = "APPROVED") then ApprovedState else RejectedState.
Proof. by case_bool_decide. Qed.

(** X11: in every world, creating an application through the facade, starting
    its review, evaluating it and deciding on it through the facade returns
    normally; the application ends Approved when the status is exactly
    "APPROVED" and Rejected otherwise; one evaluation and one decision are
    stored under the counters' values, both carrying the new application's
    id, and each of the three counters has advanced by one. *)
Theorem full_path_decides (self : SystemFacade.t) (e : Env)
    (applicant_id : Z) (title description : string)
    (expert_id score : Z) (comments : string)
    (fund_holder_id : Z) (status notes : string) :
  let n_app := ApplicationService.next_id (SystemFacade.application_service self) in
  let n_eval := EvaluationService.next_id (SystemFacade.evaluation_service self) in
  let n_dec := DecisionService.next_id (SystemFacade.decision_service self) in
  exists app self' e',
    full_path applicant_id title description expert_id score comments
              fund_holder_id status notes (self, e)
    = (Return app, (self', e'))
    /\ heap e' !! app
       = Some (Application.mk n_app title description applicant_id
                 (if bool_decide (status = "APPROVED")
                  then ApprovedState else RejectedState))
    /\ dict_get (ApplicationService.applications
                   (SystemFacade.application_service self')) n_app = Some app
    /\ EvaluationService.evaluations (SystemFacade.evaluation_service self')
         !! n_eval
       = Some (Evaluation.mk n_eval n_app expert_id score comments)
    /\ DecisionService.decisions (SystemFacade.decision_service self') !! n_dec
       = Some (Decision.mk n_dec n_app fund_holder_id status notes)
    /\ ApplicationService.next_id (SystemFacade.application_service self')
       = n_app + 1
    /\ EvaluationService.next_id (SystemFacade.evaluation_service self')
       = n_eval + 1
    /\ DecisionService.next_id (SystemFacade.decision_service self') = n_dec + 1.
Proof.
  intros n_app n_eval n_dec.
  set (a := length (heap e)).
  set (obj0 := Application.mk n_app title description applicant_id SubmittedState).
  unfold full_path.
  erewrite bind_return by apply submit_application_run.
  fold n_app a obj0.
  match goal with
  | |- context [bind (lift_env (Application_start_review a)) _ (?s, ?w)] =>
      set (self1 := s); set (e1 := w)
  end.
  assert (Ha1 : heap e1 !! a = Some obj0)
    by (cbn [e1 heap]; by apply list_lookup_middle).
  assert (Hlen : (a < length (heap e1))%nat) by by eapply lookup_lt_Some.
  destruct (perform_run e1 a obj0 Review Ha1) as (l1 & Hreview & _).
  cbn [perform] in Hreview.
  erewrite bind_return by (apply lift_env_run; exact Hreview).
  set (obj2 := Application.with_state UnderReviewState obj0).
  change (Application.with_state (target (Application.state obj0) Review) obj0)
    with obj2.
  set (e2 := mkEnv (<[a := obj2]> (heap e1)) (stdout e1 ++ l1)).
  assert (Ha2 : heap e2 !! a = Some obj2)
    by (cbn [e2 heap]; by apply list_lookup_insert_eq).
  erewrite bind_return by (apply lift_env_run; by apply getattr_run).
  cbn [obj2 obj0 Application.with_state Application.application_id].
  assert (Hget : dict_get (ApplicationService.applications
                             (SystemFacade.application_service self1)) n_app
                 = Some a) by apply dict_get_set_eq.
  erewrite bind_return; cycle 1.
  { eapply (evaluate_application_run self1 e2); [exact Hget|].
    by apply (save_evaluation_accepted _ e2 a obj2). }
  match goal with
  | |- context [bind (SystemFacade.make_decision _ _ _ _) _ (?s, ?w)] =>
      set (self3 := s); set (e3 := w)
  end.
  set (obj3 := Application.with_state EvaluatedState obj2).
  assert (Ha3 : heap e3 !! a = Some obj3).
  { cbn [e3 heap]. apply list_lookup_insert_eq. cbn [e2 heap].
    by rewrite length_insert. }
  set (forwarded := if bool_decide (status = "APPROVED")
                    then "APPROVED" else "REJECTED").
  destruct (perform_run e3 a obj3 (Decide forwarded) Ha3) as (l3 & Hdecide & _).
  cbn [perform] in Hdecide.
  erewrite bind_return; cycle 1.
  { eapply (make_decision_run self3 e3); [exact Hget|].
    apply (save_decision_run _ e3 a obj3 _ _ _ Ha3). exact Hdecide. }
  unfold ret. eexists _, _, _. split; [reflexivity|].
  cbn [heap SystemFacade.application_service SystemFacade.evaluation_service
       SystemFacade.decision_service self3 self1
       ApplicationService.applications ApplicationService.next_id
       EvaluationService.evaluations EvaluationService.next_id
       DecisionService.decisions DecisionService.next_id].
  split.
  { rewrite list_lookup_insert_eq.
    - cbn [obj3 Application.state Application.with_state]. subst forwarded.
      by rewrite forwarded_target.
    - cbn [e3 e2 heap]. by rewrite !length_insert. }
  split; [exact Hget|].
  split; [by rewrite lookup_insert_eq|].
  split; [by rewrite lookup_insert_eq|].
  done.
Qed.

(** ** Scripts that use the facade only *)

Lemma dict_get_elem {V} (d : dict V) k v : dict_get d k = Some v -> (k, v) ∈ d.
Proof.
  induction d as [|[k' v'] d IH]; simpl; [done|].
  destruct (Z.eqb_spec k' k) as [->|Hne].
  - intros [= ->]. left.
  - intros H. right. by apply IH.
Qed.

Lemma dict_set_Forall {V} (P : Z * V -> Prop) (d : dict V) k v :
  Forall P d -> P (k, v) -> Forall P (dict_set d k v).
Proof.
  intros Hd Hnew. induction Hd as [|[k' v'] d Hp Hd IH]; simpl.
  - by constructor.
  - destruct (Z.eqb_spec k' k) as [->|Hne]; by constructor.
Qed.

Lemma registry_lookup reg (e : Env) k a :
  registry_ok reg e ->
  dict_get (ApplicationService.applications reg) k = Some a ->
  exists obj, heap e !! a = Some obj /\ Application.application_id obj = k.
Proof.
  intros (_ & Hall & _) Hget. apply dict_get_elem in Hget.
  rewrite Forall_forall in Hall. by destruct (Hall _ Hget) as [_ Hobj].
Qed.

Lemma registry_values_valid reg (e : Env) :
  registry_ok reg e ->
  Forall (fun a => is_Some (heap e !! a))
         (dict_values (ApplicationService.applications reg)).
Proof.
  intros (_ & Hall & _). unfold dict_values.
  apply Forall_forall. intros a Ha.
  apply list_elem_of_fmap in Ha as ([k a'] & -> & Hin).
  pose proof (proj1 (Forall_forall _ _) Hall _ Hin) as [_ (obj & Hobj & _)].
  by exists obj.
Qed.

(** The registry stays in order when the heap keeps every object's id. *)
Lemma registry_ok_heap reg (e e' : Env) :
  registry_ok reg e ->
  (forall a obj, heap e !! a = Some obj ->
     exists obj', heap e' !! a = Some obj'
                  /\ Application.application_id obj' = Application.application_id obj) ->
  registry_ok reg e'.
Proof.
  intros (Hpos & Hall & Hdom) Hkeep. split; [done|]. split; [|done].
  eapply Forall_impl; [exact Hall|].
  intros [k a] [Hk (obj & Hobj & Hid)]. split; [done|].
  destruct (Hkeep a obj Hobj) as (obj' & Hobj' & Hid'). exists obj'.
  split; [done|]. by rewrite Hid'.
Qed.

Lemma insert_keeps_ids (h : list Application.t) a obj s out out' :
  h !! a = Some obj ->
  forall b objb, heap (mkEnv h out) !! b = Some objb ->
    exists obj', heap (mkEnv (<[a := Application.with_state s obj]> h) out') !! b
                 = Some obj'
                 /\ Application.application_id obj' = Application.application_id objb.
Proof.
  intros Ha b objb Hb. cbn [heap] in *.
  destruct (decide (b = a)) as [->|Hne].
  - rewrite list_lookup_insert_eq by by eapply lookup_lt_Some.
    eexists. split; [done|]. rewrite Ha in Hb. by injection Hb as <-.
  - rewrite list_lookup_insert_ne by done. by exists objb.
Qed.

Lemma states_ok_insert (h : list Application.t) a obj s out out' :
  states_ok (mkEnv h out) ->
  s = SubmittedState \/ s = WithdrawnState ->
  states_ok (mkEnv (<[a := Application.with_state s obj]> h) out').
Proof.
  unfold states_ok; cbn [heap]. intros Hall Hs.
  by apply Forall_insert.
Qed.

Lemma states_ok_lookup (e : Env) a obj :
  states_ok e -> heap e !! a = Some obj ->
  Application.state obj = SubmittedState \/ Application.state obj = WithdrawnState.
Proof.
  intros Hall Ha. unfold states_ok in Hall. rewrite Forall_forall in Hall.
  apply Hall. by eapply list_elem_of_lookup_2.
Qed.

Lemma facade_inv_same_heap (self self' : SystemFacade.t) h out out' :
  facade_inv (self, mkEnv h out) ->
  SystemFacade.application_service self' = SystemFacade.application_service self ->
  SystemFacade.evaluation_service self' = SystemFacade.evaluation_service self ->
  facade_inv (self', mkEnv h out').
Proof.
  intros (Hreg & Hst & Hev) Happ Heval. unfold facade_inv; cbn [fst snd] in *.
  rewrite Happ, Heval. split; [|done].
  eapply registry_ok_heap; [exact Hreg|]. intros a obj Ha. by exists obj.
Qed.

Lemma facade_inv_insert (self self' : SystemFacade.t) h out out' a obj s :
  facade_inv (self, mkEnv h out) ->
  h !! a = Some obj ->
  s = SubmittedState \/ s = WithdrawnState ->
  SystemFacade.application_service self' = SystemFacade.application_service self ->
  SystemFacade.evaluation_service self' = SystemFacade.evaluation_service self ->
  facade_inv (self', mkEnv (<[a := Application.with_state s obj]> h) out').
Proof.
  intros (Hreg & Hst & Hev) Ha Hs Happ Heval.
  unfold facade_inv; cbn [fst snd] in *. rewrite Happ, Heval.
  split; [|split; [|done]].
  - eapply registry_ok_heap; [exact Hreg|]. by apply insert_keeps_ids.
  - by eapply states_ok_insert.
Qed.

Lemma facade_inv_submit (self : SystemFacade.t) h out out'
    (applicant_id : Z) (title description : string) :
  let registry := SystemFacade.application_service self in
  facade_inv (self, mkEnv h out) ->
  facade_inv
    (SystemFacade.mk
       (ApplicationService.mk
          (dict_set (ApplicationService.applications registry)
                    (ApplicationService.next_id registry) (length h))
          (ApplicationService.next_id registry + 1))
       (SystemFacade.evaluation_service self)
       (SystemFacade.decision_service self),
     mkEnv (h ++ [Application.mk (ApplicationService.next_id registry) title
                                 description applicant_id SubmittedState])
           out').
Proof.
  intros registry ((Hpos & Hall & Hdom) & Hst & Hev).
  cbn [fst snd heap] in *. fold registry in Hpos, Hall, Hdom.
  split; [|split; [|done]].
  - split; [|split]; cbn [ApplicationService.next_id fst snd
                           SystemFacade.application_service
                           ApplicationService.applications heap].
    + lia.
    + apply dict_set_Forall.
      * eapply Forall_impl; [exact Hall|].
        intros [k a] [Hk (obj & Hobj & Hid)]. cbn [fst snd] in *.
        split; [lia|]. exists obj. split; [|done]. by apply lookup_app_l_Some.
      * cbn [fst snd]. split; [lia|]. eexists.
        split; [by apply list_lookup_middle | reflexivity].
    + intros k Hk.
      destruct (decide (ApplicationService.next_id registry = k)) as [<-|Hne].
      * rewrite dict_get_set_eq. by eexists.
      * rewrite dict_get_set_ne by done. apply Hdom. lia.
  - unfold states_ok in *; cbn [heap] in *. apply Forall_app. split; [done|].
    constructor; [by left | constructor].
Qed.

Lemma view_status_run (self : SystemFacade.t) (e : Env) (applicant_id : Z) :
  Forall (fun a => is_Some (heap e !! a))
         (dict_values (ApplicationService.applications
                         (SystemFacade.application_service self))) ->
  exists lines,
    SystemFacade.view_status applicant_id (self, e)
    = (Return tt, (self, mkEnv (heap e) (stdout e ++ lines))).
Proof.
  intros Hall.
  set (owned := filter (fun a => owner_at e a = Some applicant_id)
                       (dict_values (ApplicationService.applications
                                       (SystemFacade.application_service self)))).
  destruct (valid_objects e owned) as [objs Hobjs].
  { subst owned. apply Forall_forall. intros a Ha.
    apply list_elem_of_filter in Ha as [_ Ha].
    by apply (proj1 (Forall_forall _ _) Hall). }
  exists (map status_line objs).
  unfold SystemFacade.view_status, SystemFacade.on_application_service, zoom,
    bind, lift_env; cbn [fst snd].
  rewrite (get_applications_by_applicant_filters_aux _ e applicant_id Hall).
  cbn [fst snd]. fold owned.
  rewrite (print_statuses_run owned e objs Hobjs). by destruct self.
Qed.

Lemma target_stays_unreviewed s op :
  s = SubmittedState \/ s = WithdrawnState ->
  op <> Review ->
  target s op = SubmittedState \/ target s op = WithdrawnState.
Proof. intros [-> | ->] Hop; destruct op; unfold target; simpl; auto; done. Qed.

(** Each facade call keeps the invariant, whatever its outcome, and never
    reads an address that holds no object. *)
Lemma facade_call_inv c (fw : SystemFacade.t * Env) :
  facade_inv fw ->
  exists r fw', facade_call c fw = (r, fw') /\ r <> Undefined /\ facade_inv fw'.
Proof.
  destruct fw as [self [h out]]. intros Hinv.
  pose proof Hinv as (Hreg & Hst & Hev). cbn [fst snd] in Hreg, Hst, Hev.
  destruct c as [applicant title description | applicant
                 | applicant id | expert id score comments
                 | fund_holder id experts | fund_holder id status notes];
    cbn [facade_call].
  - erewrite bind_return by apply submit_application_run. unfold ret.
    eexists _, _. split; [reflexivity|]. split; [done|].
    cbn [heap]. by apply (facade_inv_submit self h out).
  - destruct (view_status_run self (mkEnv h out) applicant) as [lines Hrun];
      [by eapply registry_values_valid|].
    rewrite Hrun. eexists _, _. split; [reflexivity|]. split; [done|].
    by eapply facade_inv_same_heap.
  - destruct (dict_get (ApplicationService.applications
                          (SystemFacade.application_service self)) id)
      as [a|] eqn:Hget.
    + destruct (registry_lookup _ _ _ _ Hreg Hget) as (obj & Ha & _).
      rewrite (withdraw_application_run self _ applicant id a obj Hget Ha).
      destruct (Application.applicant_id obj =? applicant).
      * destruct (perform_run (mkEnv h out) a obj Withdraw Ha)
          as (lines & Hrun & _).
        cbn [perform] in Hrun. rewrite (lift_env_run _ _ _ _ _ Hrun).
        eexists _, _. split; [reflexivity|]. split; [done|].
        cbn [heap stdout]. eapply facade_inv_insert; try done.
        apply target_stays_unreviewed; [|done].
        by eapply (states_ok_lookup (mkEnv h out)).
      * eexists _, _. split; [reflexivity|]. split; [done|].
        by eapply facade_inv_same_heap.
    + rewrite (withdraw_application_unknown self _ applicant id Hget).
      eexists _, _. split; [reflexivity|]. split; [done|].
      by eapply facade_inv_same_heap.
  - destruct (dict_get (ApplicationService.applications
                          (SystemFacade.application_service self)) id)
      as [a|] eqn:Hget.
    + destruct (registry_lookup _ _ _ _ Hreg Hget) as (obj & Ha & _).
      erewrite evaluate_application_run; [| exact Hget |]; cycle 1.
      { apply (save_evaluation_refused _ _ a obj); [exact Ha|].
        destruct (states_ok_lookup _ _ _ Hst Ha) as [-> | ->]; done. }
      eexists _, _. split; [reflexivity|]. split; [done|].
      by eapply facade_inv_same_heap.
    + rewrite (evaluate_application_missing self _ expert id score comments Hget).
      eexists _, _. split; [reflexivity|]. split; [done|]. exact Hinv.
  - unfold SystemFacade.assign_experts, SystemFacade.lookup_application,
      SystemFacade.on_decision_service, DecisionService.assign_experts, zoom,
      bind, self_get, gets, lift_env; cbn [fst snd].
    destruct (dict_get (ApplicationService.applications
                          (SystemFacade.application_service self)) id)
      as [a|] eqn:Hget; cbn [fst snd].
    + destruct (registry_lookup _ _ _ _ Hreg Hget) as (obj & Ha & _).
      rewrite (getattr_run _ _ _ _ _ Ha).
      eexists _, _. split; [reflexivity|]. split; [done|].
      by eapply facade_inv_same_heap.
    + eexists _, _. split; [reflexivity|]. split; [done|].
      by eapply facade_inv_same_heap.
  - destruct (dict_get (ApplicationService.applications
                          (SystemFacade.application_service self)) id)
      as [a|] eqn:Hget.
    + destruct (registry_lookup _ _ _ _ Hreg Hget) as (obj & Ha & _).
      set (forwarded := if bool_decide (status = "APPROVED")
                        then "APPROVED" else "REJECTED").
      destruct (perform_run (mkEnv h out) a obj (Decide forwarded) Ha)
        as (lines & Hrun & _).
      cbn [perform] in Hrun.
      erewrite make_decision_run; [| exact Hget |]; cycle 1.
      { apply (save_decision_run _ _ a obj _ _ _ Ha). exact Hrun. }
      eexists _, _. split; [reflexivity|]. split; [done|].
      cbn [heap stdout]. eapply facade_inv_insert; try done.
      apply target_stays_unreviewed; [|done].
      by eapply (states_ok_lookup (mkEnv h out)).
    + rewrite (make_decision_missing self _ fund_holder id status notes Hget).
      eexists _, _. split; [reflexivity|]. split; [done|].
      by eapply facade_inv_same_heap.
Qed.

Lemma facade_calls_inv cs : forall fw : SystemFacade.t * Env,
  facade_inv fw ->
  exists r fw', facade_calls cs fw = (r, fw') /\ r <> Undefined /\ facade_inv fw'.
Proof.
  induction cs as [|c cs IH]; intros fw Hinv.
  - exists (Return tt), fw. by split.
  - destruct (facade_call_inv c fw Hinv) as (r & fw1 & Hcall & Hdef & Hinv1).
    cbn [facade_calls]. unfold bind. rewrite Hcall.
    destruct r as [[]|err|]; [by apply IH | | done].
    exists (Raise err), fw1. by split.
Qed.

Lemma fresh_world_inv : facade_inv fresh_world.
Proof.
  split; [|split; [|done]].
  - split; [done|]. split; [constructor|]. simpl. intros k Hk. lia.
  - constructor.
Qed.

(** X12: a script that only calls the facade, starting from a new facade,
    never gets an application past Submitted except into Withdrawn, and never
    stores an evaluation: whatever the calls, and whether the run returns or
    stops at an exception, every application is Submitted or Withdrawn and
    the Evaluation Service is as new.  The facade has no call that starts a
    review. *)
Theorem facade_alone_never_reviews (cs : list FacadeCall) :
  exists r fw,
    facade_calls cs fresh_world = (r, fw)
    /\ r <> Undefined
    /\ (forall a obj,
          heap fw.2 !! a = Some obj ->
          Application.state obj = SubmittedState
          \/ Application.state obj = WithdrawnState)
    /\ EvaluationService.evaluations (SystemFacade.evaluation_service fw.1) = ∅
    /\ EvaluationService.next_id (SystemFacade.evaluation_service fw.1) = 1.
Proof.
  destruct (facade_calls_inv cs fresh_world fresh_world_inv)
    as (r & fw & Hrun & Hdef & Hreg & Hst & Hev).
  exists r, fw. split; [done|]. split; [done|]. split.
  - intros a obj Ha. by eapply states_ok_lookup.
  - by rewrite Hev.
Qed.

(** X13: after any script of facade calls on a new facade, the registry holds
    exactly the ids from 1 up to the counter, and the object found under an id
    exists and carries that id. *)
Theorem facade_registry_consistent (cs : list FacadeCall) :
  exists r fw,
    facade_calls cs fresh_world = (r, fw)
    /\ (forall k,
          is_Some (dict_get (ApplicationService.applications
                               (SystemFacade.application_service fw.1)) k)
          <-> 1 <= k < ApplicationService.next_id
                         (SystemFacade.application_service fw.1))
    /\ (forall k a,
          dict_get (ApplicationService.applications
                      (SystemFacade.application_service fw.1)) k = Some a ->
          exists obj, heap fw.2 !! a = Some obj
                      /\ Application.application_id obj = k).
Proof.
  destruct (facade_calls_inv cs fresh_world fresh_world_inv)
    as (r & fw & Hrun & Hdef & Hreg & Hst & Hev).
  exists r, fw. split; [done|]. split.
  - intros k. split.
    + intros [a Hget]. apply dict_get_elem in Hget.
      destruct Hreg as (_ & Hall & _).
      by destruct (proj1 (Forall_forall _ _) Hall _ Hget) as [Hk _].
    + destruct Hreg as (_ & _ & Hdom). apply Hdom.
  - intros k a Hget. by eapply registry_lookup.
Qed.

(** ** Decisions *)

Lemma save_decision_heap (self : DecisionService.t) (w : Env) a obj
    (fund_holder_id : Z) (status notes : string) :
  heap w !! a = Some obj ->
  exists lines,
    DecisionService.save_decision (Some a) fund_holder_id status notes (self, w)
    = (Return tt,
       (DecisionService.mk
          (<[DecisionService.next_id self :=
               Decision.mk (DecisionService.next_id self)
                           (Application.application_id obj)
                           fund_holder_id status notes]>
             (DecisionService.decisions self))
          (DecisionService.next_id self + 1),
        mkEnv (<[a := Application.with_state
                         (target (Application.state obj)
                            (Decide (if bool_decide (status = "APPROVED")
                                     then "APPROVED" else "REJECTED")))
                         obj]> (heap w))
              (stdout w ++ lines))).
Proof.
  intros Ha.
  set (forwarded := if bool_decide (status = "APPROVED")
                    then "APPROVED" else "REJECTED").
  destruct (perform_run w a obj (Decide forwarded) Ha) as (lines & Hrun & _).
  cbn [perform] in Hrun. eexists.
  rewrite (save_decision_run self w a obj fund_holder_id status notes Ha _ Hrun).
  cbn [heap stdout]. by rewrite <- app_assoc.
Qed.

(** X14: the literals written by [Decision.approve] and [Decision.reject]
    are the ones the decision path understands: on an Evaluated application,
    [save_decision] with the status of an approved record ends Approved and
    with the status of a rejected record ends Rejected; of the two methods
    the last one called wins, and neither touches the other fields. *)
Theorem approve_reject_agree_with_decide (d : Decision.t)
    (self : DecisionService.t) (w : Env) a obj (fund_holder_id : Z)
    (notes : string) :
  heap w !! a = Some obj ->
  Application.state obj = EvaluatedState ->
  (exists self' w',
     DecisionService.save_decision (Some a) fund_holder_id
       (Decision.status (Decision.approve d)) notes (self, w)
     = (Return tt, (self', w'))
     /\ state_at w' a = Some ApprovedState)
  /\ (exists self' w',
        DecisionService.save_decision (Some a) fund_holder_id
          (Decision.status (Decision.reject d)) notes (self, w)
        = (Return tt, (self', w'))
        /\ state_at w' a = Some RejectedState)
  /\ Decision.approve (Decision.reject d) = Decision.approve d
  /\ Decision.reject (Decision.approve d) = Decision.reject d
  /\ (forall d', d' = Decision.approve d \/ d' = Decision.reject d ->
        Decision.decision_id d' = Decision.decision_id d
        /\ Decision.application_id d' = Decision.application_id d
        /\ Decision.fund_holder_id d' = Decision.fund_holder_id d
        /\ Decision.notes d' = Decision.notes d).
Proof.
  intros Ha Hs. split; [|split; [|split; [done|split; [done|]]]].
  - destruct (save_decision_heap self w a obj fund_holder_id
                (Decision.status (Decision.approve d)) notes Ha) as [lines Hrun].
    eexists _, _. split; [exact Hrun|].
    rewrite Hs. by eapply state_at_insert.
  - destruct (save_decision_heap self w a obj fund_holder_id
                (Decision.status (Decision.reject d)) notes Ha) as [lines Hrun].
    eexists _, _. split; [exact Hrun|].
    rewrite Hs. by eapply state_at_insert.
  - intros d' [-> | ->]; done.
Qed.

Lemma approve_reject_agree_with_decide_witness :
  exists self' w',
    DecisionService.save_decision (Some 0%nat) 3
      (Decision.status (Decision.approve (Decision.mk 9 1 3 "pending" "n")))
      "Excellent" (DecisionService.init, env_with EvaluatedState)
    = (Return tt, (self', w'))
    /\ state_at w' 0%nat = Some ApprovedState.
Proof.
  apply (proj1 (approve_reject_agree_with_decide
                  (Decision.mk 9 1 3 "pending" "n") DecisionService.init
                  (env_with EvaluatedState) 0%nat
                  (Application.mk 1 "Project X" "Description X" 1 EvaluatedState)
                  3 "Excellent" eq_refl eq_refl)).
Defined.

Lemma decided_stays (status : string) ops :
  targets ops (if bool_decide (status = "APPROVED")
               then ApprovedState else RejectedState)
  = if bool_decide (status = "APPROVED") then ApprovedState else RejectedState.
Proof.
  symmetry. apply terminal_stays; [|apply targets_forward].
  unfold terminal. case_bool_decide; auto.
Qed.

(** X15: the first decision on an Evaluated application is final for its
    state but not for the store: after it, and after any operations on the
    application, a second [save_decision] with any status stores a second
    record under the next id, keeps the first record, and leaves the
    application Approved or Rejected as the first status decided. *)
Theorem first_decision_is_final (self : DecisionService.t) (w : Env) a obj
    (holder1 : Z) (status1 notes1 : string) (ops : list Operation)
    (holder2 : Z) (status2 notes2 : string) :
  heap w !! a = Some obj ->
  Application.state obj = EvaluatedState ->
  let n := DecisionService.next_id self in
  let decided :=
    if bool_decide (status1 = "APPROVED") then ApprovedState else RejectedState in
  exists self1 w1 w2 self2 w3,
    DecisionService.save_decision (Some a) holder1 status1 notes1 (self, w)
    = (Return tt, (self1, w1))
    /\ state_at w1 a = Some decided
    /\ perform_all ops a w1 = (Return tt, w2)
    /\ DecisionService.save_decision (Some a) holder2 status2 notes2 (self1, w2)
       = (Return tt, (self2, w3))
    /\ state_at w3 a = Some decided
    /\ DecisionService.decisions self2 !! n
       = Some (Decision.mk n (Application.application_id obj) holder1 status1
                           notes1)
    /\ DecisionService.decisions self2 !! (n + 1)
       = Some (Decision.mk (n + 1) (Application.application_id obj) holder2
                           status2 notes2).
Proof.
  intros Ha Hs n decided.
  assert (Hlt : (a < length (heap w))%nat) by by eapply lookup_lt_Some.
  destruct (save_decision_heap self w a obj holder1 status1 notes1 Ha)
    as [l1 Hfirst].
  rewrite Hs, forwarded_target in Hfirst. fold decided n in Hfirst.
  set (obj1 := Application.with_state decided obj) in Hfirst.
  match type of Hfirst with
  | _ = (_, (?s, ?e)) => set (self1 := s) in Hfirst; set (w1 := e) in Hfirst
  end.
  assert (Ha1 : heap w1 !! a = Some obj1)
    by (cbn [w1 heap]; by apply list_lookup_insert_eq).
  destruct (perform_all_run ops w1 a obj1 Ha1) as (l2 & Hops).
  cbn [obj1 Application.with_state Application.state] in Hops.
  unfold decided in Hops at 1. rewrite decided_stays in Hops. fold decided in Hops.
  match type of Hops with
  | _ = (_, ?e) => set (w2 := e) in Hops
  end.
  assert (Ha2 : heap w2 !! a = Some obj1).
  { cbn [w2 heap]. rewrite list_lookup_insert_eq
      by (cbn [w1 heap]; by rewrite length_insert).
    reflexivity. }
  destruct (save_decision_heap self1 w2 a obj1 holder2 status2 notes2 Ha2)
    as [l3 Hsecond].
  exists self1, w1, w2. eexists _, _.
  split; [exact Hfirst|]. split; [by eapply state_at_insert|].
  split; [exact Hops|]. split; [exact Hsecond|].
  split; [|split].
  - replace (target (Application.state obj1) _) with decided.
    + eapply state_at_insert. exact Ha2.
    + cbn [obj1 Application.with_state Application.state].
      unfold decided. by destruct (bool_decide (status1 = "APPROVED")).
  - cbn [self1 DecisionService.decisions DecisionService.next_id].
    rewrite lookup_insert_ne by lia. by rewrite lookup_insert_eq.
  - cbn [self1 DecisionService.decisions DecisionService.next_id].
    by rewrite lookup_insert_eq.
Qed.

Lemma first_decision_is_final_witness :
  exists self1 w1 w2 self2 w3,
    DecisionService.save_decision (Some 0%nat) 3 "APPROVED" "Excellent"
      (DecisionService.init, env_with EvaluatedState)
    = (Return tt, (self1, w1))
    /\ state_at w1 0%nat = Some ApprovedState
    /\ perform_all [Withdraw] 0%nat w1 = (Return tt, w2)
    /\ DecisionService.save_decision (Some 0%nat) 5 "REJECTED" "Changed my mind"
         (self1, w2)
       = (Return tt, (self2, w3))
    /\ state_at w3 0%nat = Some ApprovedState
    /\ DecisionService.decisions self2 !! 1
       = Some (Decision.mk 1 1 3 "APPROVED" "Excellent")
    /\ DecisionService.decisions self2 !! (1 + 1)
       = Some (Decision.mk (1 + 1) 1 5 "REJECTED" "Changed my mind").
Proof.
  apply (first_decision_is_final DecisionService.init (env_with EvaluatedState)
           0%nat
           (Application.mk 1 "Project X" "Description X" 1 EvaluatedState)
           3 "APPROVED" "Excellent" [Withdraw] 5 "REJECTED" "Changed my mind");
    reflexivity.
Defined.

(** X16: a decision on an id the registry does not hold fails after the
    Decision Service has taken an id: no record is stored, but the next
    decision that goes through is stored under the id after the lost one, and
    nothing is ever stored under the lost id by these calls.  An evaluation on
    a missing id fails before any counter moves. *)
Theorem failed_decision_loses_an_id (self : SystemFacade.t) (w : Env)
    (missing_id registered_id : Z) a obj
    (holder : Z) (status notes : string)
    (holder' : Z) (status' notes' : string)
    (expert score : Z) (comments : string) :
  let registry :=
    ApplicationService.applications (SystemFacade.application_service self) in
  let n := DecisionService.next_id (SystemFacade.decision_service self) in
  dict_get registry missing_id = None ->
  dict_get registry registered_id = Some a ->
  heap w !! a = Some obj ->
  exists err self1 self2 w2,
    SystemFacade.make_decision holder missing_id status notes (self, w)
    = (Raise err, (self1, w))
    /\ DecisionService.decisions (SystemFacade.decision_service self1)
       = DecisionService.decisions (SystemFacade.decision_service self)
    /\ SystemFacade.make_decision holder' registered_id status' notes' (self1, w)
       = (Return tt, (self2, w2))
    /\ DecisionService.decisions (SystemFacade.decision_service self2) !! (n + 1)
       = Some (Decision.mk (n + 1) (Application.application_id obj) holder'
                           status' notes')
    /\ DecisionService.decisions (SystemFacade.decision_service self2) !! n
       = DecisionService.decisions (SystemFacade.decision_service self) !! n
    /\ exists err',
         SystemFacade.evaluate_application expert missing_id score comments
           (self, w)
         = (Raise err', (self, w)).
Proof.
  intros registry n Hmiss Hget Ha.
  destruct (save_decision_heap
              (DecisionService.mk
                 (DecisionService.decisions (SystemFacade.decision_service self))
                 (n + 1))
              w a obj holder' status' notes' Ha) as [lines Hsave].
  eexists _, _, _, _.
  split; [by apply make_decision_missing|].
  cbn [SystemFacade.decision_service DecisionService.decisions].
  split; [done|].
  split.
  { eapply make_decision_run; [exact Hget | exact Hsave]. }
  cbn [SystemFacade.decision_service DecisionService.decisions
       DecisionService.next_id].
  split; [by rewrite lookup_insert_eq|].
  split; [rewrite lookup_insert_ne by lia; done|].
  eexists. by apply evaluate_application_missing.
Qed.

Lemma failed_decision_loses_an_id_witness :
  exists err self1 self2 w2,
    SystemFacade.make_decision 3 9 "APPROVED" "x"
      (SystemFacade.mk (ApplicationService.mk [(1, 0%nat)] 2)
                       EvaluationService.init DecisionService.init,
       env_with EvaluatedState)
    = (Raise err, (self1, env_with EvaluatedState))
    /\ DecisionService.decisions (SystemFacade.decision_service self1) = ∅
    /\ SystemFacade.make_decision 3 1 "APPROVED" "y" (self1, env_with EvaluatedState)
       = (Return tt, (self2, w2))
    /\ DecisionService.decisions (SystemFacade.decision_service self2) !! (1 + 1)
       = Some (Decision.mk (1 + 1) 1 3 "APPROVED" "y")
    /\ DecisionService.decisions (SystemFacade.decision_service self2) !! 1
       = (∅ : gmap Z Decision.t) !! 1
    /\ exists err',
         SystemFacade.evaluate_application 2 9 85 "z"
           (SystemFacade.mk (ApplicationService.mk [(1, 0%nat)] 2)
                            EvaluationService.init DecisionService.init,
            env_with EvaluatedState)
         = (Raise err',
            (SystemFacade.mk (ApplicationService.mk [(1, 0%nat)] 2)
                             EvaluationService.init DecisionService.init,
             env_with EvaluatedState)).
Proof.
  apply (failed_decision_loses_an_id
           (SystemFacade.mk (ApplicationService.mk [(1, 0%nat)] 2)
                            EvaluationService.init DecisionService.init)
           (env_with EvaluatedState) 9 1 0%nat
           (Application.mk 1 "Project X" "Description X" 1 EvaluatedState)
           3 "APPROVED" "x" 3 "APPROVED" "y" 2 85 "z"); reflexivity.
Defined.
